(** * make_config_acag30: remapping the atom types of a LAMMPS data file

    A shallow embedding of [mainSimulations/make_config_acag30.py] and the
    properties of its four stages (header scan, Atoms-block locator, chain
    inference, type remapper) and of [main].

    Text is modelled as [string] (a sequence of 8-bit characters, read as the
    code points below 256), Python integers as [Z], Python lists as [list]
    with Python's indexing written out (negative indices wrap, anything out
    of range raises [IndexError]), and exceptions as an error monad. *)

From Stdlib Require Import ZArith Ascii String DecimalString.
From stdpp Require Import base tactics option list strings gmap.

Local Open Scope string_scope.
Local Open Scope Z_scope.

(** ** Exceptions *)

(** The six [ValueError]s the script raises itself, named as in the error
    taxonomy of the specification, and the exceptions raised by the Python
    built-ins it calls. *)
Inductive error : Type :=
  | MissingHeaderFact      (* "Could not find '<N> atoms' line in header." *)
  | MissingSection         (* "Could not find 'Atoms' section in data file." *)
  | TruncatedDocument      (* "Atoms block (expected ...) extends past EOF" *)
  | EmptyBlock             (* "No atom entries found in Atoms block." *)
  | IndivisibleChainCount  (* "Total atoms (..) is not divisible by ..." *)
  | MalformedRecord        (* "Unexpected atom line format at line ..." *)
  | InvalidLiteral         (* ValueError of int(): invalid literal *)
  | IndexError             (* list index out of range *)
  | ZeroDivisionError      (* integer modulo by zero *)
  | FileNotFoundError.     (* read_text() of a path that does not exist *)

Inductive result (A : Type) : Type :=
  | Ok (a : A)
  | Raise (e : error).
Arguments Ok {A} a.
Arguments Raise {A} e.

#[global] Instance result_ret : MRet result := fun A a => Ok a.
#[global] Instance result_bind : MBind result := fun A B f m =>
  match m with
  | Ok a => f a
  | Raise e => Raise e
  end.

#[global] Instance error_eq_dec : EqDecision error.
Proof. solve_decision. Defined.

Definition succeeds {A} (m : result A) : Prop := ∃ a, m = Ok a.
Definition fails {A} (m : result A) : Prop := ∃ e, m = Raise e.

(** ** Python strings *)

Module Py.

Definition LF : ascii := "010"%char.
Definition newline : string := String LF "".

(** [str.isspace] on a single character: the code points 9-13, 28-32, 133
    and 160 are the white space below 256. *)
Definition is_space (c : ascii) : bool :=
  let n := N_of_ascii c in
  (((9 <=? n) && (n <=? 13)) || ((28 <=? n) && (n <=? 32))
   || (n =? 133) || (n =? 160))%N.

Definition empty (s : string) : bool :=
  match s with "" => true | String _ _ => false end.

(** [s.lstrip()], [s.rstrip()], [s.strip()] *)
Fixpoint lstrip (s : string) : string :=
  match s with
  | "" => ""
  | String c s' => if is_space c then lstrip s' else s
  end.

Fixpoint rstrip (s : string) : string :=
  match s with
  | "" => ""
  | String c s' =>
      let r := rstrip s' in
      if is_space c && empty r then "" else String c r
  end.

Definition strip (s : string) : string := rstrip (lstrip s).

(** [s.startswith(p)] *)
Fixpoint startswith (p s : string) : bool :=
  match p, s with
  | "", _ => true
  | String a p', String b s' => if Ascii.eqb a b then startswith p' s' else false
  | String _ _, "" => false
  end.

(** Does [s] begin with a character that is not white space? *)
Definition token_start (s : string) : bool :=
  match s with
  | "" => false
  | String c _ => negb (is_space c)
  end.

(** [s.split()]: the maximal runs of characters that are not white space. *)
Fixpoint split (s : string) : list string :=
  match s with
  | "" => []
  | String c s' =>
      if is_space c then split s'
      else if token_start s' then
        match split s' with
        | t :: ts => String c t :: ts
        | [] => [String c ""]
        end
      else String c "" :: split s'
  end.

(** [sep.join(parts)] *)
Fixpoint join (sep : string) (parts : list string) : string :=
  match parts with
  | [] => ""
  | [p] => p
  | p :: ps => p ++ sep ++ join sep ps
  end.

(** [int(s)] on a token without white space: an optional sign, then decimal
    digits in which single underscores may separate digits.  [None] stands
    for the [ValueError] of an invalid literal.  (The interpreter's limit on
    the number of digits is not modelled.) *)
Definition digit_val (c : ascii) : option Z :=
  let n := N_of_ascii c in
  if ((48 <=? n) && (n <=? 57))%N then Some (Z.of_N n - 48) else None.

Fixpoint int_digits (s : string) (acc : Z) (after_digit : bool) : option Z :=
  match s with
  | "" => if after_digit then Some acc else None
  | String c s' =>
      match digit_val c with
      | Some d => int_digits s' (10 * acc + d) true
      | None =>
          if Ascii.eqb c "_" && after_digit then int_digits s' acc false
          else None
      end
  end.

Definition int (s : string) : option Z :=
  match s with
  | String "-" s' => Z.opp <$> int_digits s' 0 false
  | String "+" s' => int_digits s' 0 false
  | _ => int_digits s 0 false
  end.

(** [str(n)] for an integer *)
Definition str (n : Z) : string := NilZero.string_of_int (Z.to_int n).

(** [len(l)] *)
Definition len {A} (l : list A) : Z := Z.of_nat (length l).

(** The position a Python index denotes in a list of [n] elements. *)
Definition index (n : nat) (i : Z) : option nat :=
  if (0 <=? i) && (i <? Z.of_nat n) then Some (Z.to_nat i)
  else if (- Z.of_nat n <=? i) && (i <? 0) then Some (Z.to_nat (Z.of_nat n + i))
  else None.

(** [l[i]] *)
Definition getitem {A} (l : list A) (i : Z) : result A :=
  match index (length l) i with
  | Some k => match l !! k with Some x => Ok x | None => Raise IndexError end
  | None => Raise IndexError
  end.

(** [l[i] = x] *)
Definition setitem {A} (l : list A) (i : Z) (x : A) : result (list A) :=
  match index (length l) i with
  | Some k => Ok (<[k := x]> l)
  | None => Raise IndexError
  end.

(** [range(a, b)] *)
Definition range (a b : Z) : list Z :=
  (λ k : nat, a + Z.of_nat k) <$> seq 0 (Z.to_nat (b - a)).

(** [a % b] (the remainder has the sign of the divisor) *)
Definition mod_ (a b : Z) : result Z :=
  if b =? 0 then Raise ZeroDivisionError else Ok (a mod b).

(** [a // b] (floor division) *)
Definition floordiv (a b : Z) : result Z :=
  if b =? 0 then Raise ZeroDivisionError else Ok (a / b).

(** [max(l)] of a list that is not empty *)
Definition max (x : Z) (l : list Z) : Z := foldl Z.max x l.

(** [int(s)] as a computation *)
Definition int_of (s : string) : result Z :=
  match int s with Some z => Ok z | None => Raise InvalidLiteral end.

(** [s.splitlines(keepends=True)]: a line ends at LF, CR, CR LF, VT, FF,
    FS, GS, RS or NEL, and keeps its terminator. *)
Definition CR : ascii := "013"%char.

Definition is_linebreak (c : ascii) : bool :=
  let n := N_of_ascii c in
  (((10 <=? n) && (n <=? 13)) || ((28 <=? n) && (n <=? 30)) || (n =? 133))%N.

Fixpoint splitlines (s : string) : list string :=
  match s with
  | "" => []
  | String c s' =>
      if is_linebreak c then
        match s' with
        | String d s'' =>
            if Ascii.eqb c CR && Ascii.eqb d LF
            then String c (String d "") :: splitlines s''
            else String c "" :: splitlines s'
        | "" => [String c ""]
        end
      else
        match splitlines s' with
        | l :: ls => String c l :: ls
        | [] => [String c ""]
        end
  end.

End Py.

Arguments Py.startswith : simpl never.

(** ** The four stages *)

(** A line of the block is skipped when its stripped text is empty or
    starts with "#" ([not stripped or stripped.startswith("#")]). *)
Definition blank_or_comment (stripped : string) : bool :=
  Py.empty stripped || Py.startswith "#" stripped.

(** [parse_num_atoms(lines)] *)
Fixpoint parse_num_atoms (lines : list string) : result Z :=
  match lines with
  | [] => Raise MissingHeaderFact
  | line :: rest =>
      match Py.split line with
      | [n; word] =>
          if String.eqb word "atoms" then Py.int_of n else parse_num_atoms rest
      | _ => parse_num_atoms rest
      end
  end.

(** The loop of [find_atoms_block]: the index of the first line whose
    stripped text starts with "Atoms", counting from [i]. *)
Fixpoint atoms_header (lines : list string) (i : Z) : option Z :=
  match lines with
  | [] => None
  | line :: rest =>
      if Py.startswith "Atoms" (Py.strip line) then Some i
      else atoms_header rest (i + 1)
  end.

(** [find_atoms_block(lines, natoms)] *)
Definition find_atoms_block (lines : list string) (natoms : Z) : result (Z * Z) :=
  match atoms_header lines 0 with
  | None => Raise MissingSection
  | Some atoms_header_idx =>
      let atoms_start := atoms_header_idx + 2 in
      let atoms_end := atoms_start + natoms in
      if Py.len lines <? atoms_end then Raise TruncatedDocument
      else Ok (atoms_start, atoms_end)
  end.

(** The loop of [infer_chain_length_and_count] over the indices [idxs],
    appending to [mol_ids]. *)
Fixpoint collect_mol_ids (lines : list string) (idxs : list Z)
    (mol_ids : list Z) : result (list Z) :=
  match idxs with
  | [] => Ok mol_ids
  | i :: rest =>
      raw ← Py.getitem lines i;
      let line := Py.strip raw in
      if blank_or_comment line then collect_mol_ids lines rest mol_ids
      else
        let parts := Py.split line in
        if Py.len parts <? 3 then collect_mol_ids lines rest mol_ids
        else
          field ← Py.getitem parts 1;
          mol_id ← Py.int_of field;
          collect_mol_ids lines rest (mol_ids ++ [mol_id])
  end.

(** What follows the loop: the chain count and the chain length. *)
Definition chain_shape (n_atoms : Z) (mol_ids : list Z) : result (Z * Z) :=
  match mol_ids with
  | [] => Raise EmptyBlock
  | m :: ms =>
      let n_chains := Py.max m ms in
      r ← Py.mod_ n_atoms n_chains;
      if negb (r =? 0) then Raise IndivisibleChainCount
      else
        chain_len ← Py.floordiv n_atoms n_chains;
        Ok (chain_len, n_chains)
  end.

(** [infer_chain_length_and_count(lines, atoms_start, atoms_end)] *)
Definition infer_chain_length_and_count (lines : list string)
    (atoms_start atoms_end : Z) : result (Z * Z) :=
  let n_atoms := atoms_end - atoms_start in
  mol_ids ← collect_mol_ids lines (Py.range atoms_start atoms_end) [];
  chain_shape n_atoms mol_ids.

Definition base_pattern : list Z := [1; 2; 1; 3].
Definition pattern_len : Z := Py.len base_pattern.

(** The body of the loop of [remap_to_acag30] for a line that is not
    skipped: the new text of the line. *)
Definition remap_record (raw : string) (chain_len : Z) : result string :=
  let parts := Py.split raw in
  if Py.len parts <? 6 then Raise MalformedRecord
  else
    field ← Py.getitem parts 0;
    atom_id ← Py.int_of field;
    idx_in_chain ← Py.mod_ (atom_id - 1) chain_len;
    k ← Py.mod_ idx_in_chain pattern_len;
    new_type ← Py.getitem base_pattern k;
    parts' ← Py.setitem parts 2 (Py.str new_type);
    Ok (Py.join " " parts' ++ Py.newline).

(** The loop of [remap_to_acag30]: lines are read from [lines] and
    written to [new_lines]. *)
Fixpoint remap_loop (lines : list string) (chain_len : Z) (idxs : list Z)
    (new_lines : list string) : result (list string) :=
  match idxs with
  | [] => Ok new_lines
  | i :: rest =>
      raw ← Py.getitem lines i;
      let stripped := Py.strip raw in
      if blank_or_comment stripped then remap_loop lines chain_len rest new_lines
      else
        new_line ← remap_record raw chain_len;
        new_lines' ← Py.setitem new_lines i new_line;
        remap_loop lines chain_len rest new_lines'
  end.

(** [remap_to_acag30(lines, atoms_start, atoms_end, chain_len)] *)
Definition remap_to_acag30 (lines : list string) (atoms_start atoms_end : Z)
    (chain_len : Z) : result (list string) :=
  remap_loop lines chain_len (Py.range atoms_start atoms_end) lines.

(** ** The run *)

(** What a run has computed when its four stages have succeeded. *)
Record run : Type := {
  natoms : Z;
  atoms_start : Z;
  atoms_end : Z;
  chain_len : Z;
  n_chains : Z;
  new_lines : list string
}.

(** The validation stages of [main], in its order. *)
Definition validate (lines : list string) : result (Z * (Z * Z) * (Z * Z)) :=
  natoms ← parse_num_atoms lines;
  block ← find_atoms_block lines natoms;
  shape ← infer_chain_length_and_count lines block.1 block.2;
  Ok (natoms, block, shape).

(** The four stages of [main], in its order, without its input and output. *)
Definition pipeline (lines : list string) : result run :=
  v ← validate lines;
  let '(natoms, (atoms_start, atoms_end), (chain_len, n_chains)) := v in
  new_lines ← remap_to_acag30 lines atoms_start atoms_end chain_len;
  Ok {| natoms := natoms; atoms_start := atoms_start; atoms_end := atoms_end;
        chain_len := chain_len; n_chains := n_chains; new_lines := new_lines |}.

(** The world [main] acts on: the text of the files by path, as
    [read_text] returns it and [write_text] takes it, and what was printed. *)
Record world : Type := {
  files : gmap string string;
  stdout : list string
}.

(** Computations that may raise and that act on the world. *)
Definition io (A : Type) : Type := world → result A * world.

#[global] Instance io_ret : MRet io := fun A a w => (Ok a, w).
#[global] Instance io_bind : MBind io := fun A B f m w =>
  match m w with
  | (Ok a, w') => f a w'
  | (Raise e, w') => (Raise e, w')
  end.

Definition lift {A} (m : result A) : io A := fun w => (m, w).

(** [path.read_text()] *)
Definition read_text (path : string) : io string := fun w =>
  match files w !! path with
  | Some text => (Ok text, w)
  | None => (Raise FileNotFoundError, w)
  end.

(** [path.write_text(text)] *)
Definition write_text (path text : string) : io unit := fun w =>
  (Ok (), {| files := <[path := text]> (files w); stdout := stdout w |}).

(** [print(text)] *)
Definition print (text : string) : io unit := fun w =>
  (Ok (), {| files := files w; stdout := stdout w ++ [text] |}).

(** [main()], with the two parsed command-line options as arguments. *)
Definition main (input output : string) : io unit :=
  text ← read_text input;
  let lines := Py.splitlines text in
  natoms ← lift (parse_num_atoms lines);
  block ← lift (find_atoms_block lines natoms);
  let '(atoms_start, atoms_end) := block in
  shape ← lift (infer_chain_length_and_count lines atoms_start atoms_end);
  let '(chain_len, n_chains) := shape in
  _ ← print ("Detected " ++ Py.str natoms ++ " atoms, " ++ Py.str n_chains
             ++ " chains, " ++ Py.str chain_len ++ " nucleotides per chain.");
  new_lines ← lift (remap_to_acag30 lines atoms_start atoms_end chain_len);
  _ ← write_text output (Py.join "" new_lines);
  print ("Wrote remapped data file to: " ++ output).

(** ** Notions the properties are stated with *)

(** A token of [split]: not empty and free of white space. *)
Fixpoint no_space (t : string) : bool :=
  match t with
  | "" => true
  | String c t' => negb (Py.is_space c) && no_space t'
  end.

Definition is_token (t : string) : bool := negb (Py.empty t) && no_space t.

(** A line is skipped by both loops when it is blank or comment-prefixed. *)
Definition skipped (raw : string) : bool := blank_or_comment (Py.strip raw).

(** The lines of the block, for a range inside the document. *)
Definition block (lines : list string) (atoms_start atoms_end : Z) : list string :=
  take (Z.to_nat (atoms_end - atoms_start)) (drop (Z.to_nat atoms_start) lines).

(** The lines of the block that chain inference reads a molecule id from. *)
Definition mol_record (raw : string) : bool :=
  negb (skipped raw) && (3 <=? Py.len (Py.split raw)).

(** Field [j] of a line, parsed as an integer. *)
Definition int_field (j : nat) (raw : string) : option Z :=
  Py.split raw !! j ≫= Py.int.

(** The type the pattern gives an atom:
    [pattern[((atom_id - 1) mod chain_len) mod 4]]. *)
Definition pattern_type (atom_id chain_len : Z) : Z :=
  base_pattern !!! Z.to_nat (((atom_id - 1) mod chain_len) mod 4).

(** A record line with type [ty] in field 2, joined by single spaces and
    closed by a newline. *)
Definition retyped (raw : string) (ty : Z) : string :=
  Py.join " " (<[2%nat := Py.str ty]> (Py.split raw)) ++ Py.newline.

(** Line [k] is the first line whose stripped text starts with "Atoms". *)
Definition first_atoms_line (lines : list string) (k : nat) : Prop :=
  (∃ line, lines !! k = Some line
           ∧ Py.startswith "Atoms" (Py.strip line) = true)
  ∧ ∀ (j : nat) line, (j < k)%nat → lines !! j = Some line →
      Py.startswith "Atoms" (Py.strip line) = false.

(** One of the four stages fails, each on what the stages before it
    returned. *)
Definition stage_fails (lines : list string) : Prop :=
  fails (parse_num_atoms lines)
  ∨ (∃ n, parse_num_atoms lines = Ok n ∧ fails (find_atoms_block lines n))
  ∨ (∃ n a b, parse_num_atoms lines = Ok n
       ∧ find_atoms_block lines n = Ok (a, b)
       ∧ fails (infer_chain_length_and_count lines a b))
  ∨ (∃ n a b cl nc, parse_num_atoms lines = Ok n
       ∧ find_atoms_block lines n = Ok (a, b)
       ∧ infer_chain_length_and_count lines a b = Ok (cl, nc)
       ∧ fails (remap_to_acag30 lines a b cl)).

(** All four stages succeed, each on what the stages before it returned. *)
Definition stages_succeed (lines : list string) (r : run) : Prop :=
  parse_num_atoms lines = Ok (natoms r)
  ∧ find_atoms_block lines (natoms r) = Ok (atoms_start r, atoms_end r)
  ∧ infer_chain_length_and_count lines (atoms_start r) (atoms_end r)
    = Ok (chain_len r, n_chains r)
  ∧ remap_to_acag30 lines (atoms_start r) (atoms_end r) (chain_len r)
    = Ok (new_lines r).

(** The shape of the lines [splitlines] returns: a line has no line
    break inside; it ends with one line break or with CR LF, but for the
    last line, which may have none; and a line that ends with a lone CR
    is not followed by a line that starts with LF. *)
Fixpoint no_break (s : string) : bool :=
  match s with
  | "" => true
  | String c s' => negb (Py.is_linebreak c) && no_break s'
  end.

Fixpoint term_line (l : string) : bool :=
  match l with
  | "" => false
  | String c l' =>
      if Py.is_linebreak c
      then Py.empty l' || (Ascii.eqb c Py.CR && String.eqb l' Py.newline)
      else term_line l'
  end.

Fixpoint ends_cr (l : string) : bool :=
  match l with
  | "" => false
  | String c l' => if Py.empty l' then Ascii.eqb c Py.CR else ends_cr l'
  end.

Definition starts_lf (s : string) : bool :=
  match s with
  | "" => false
  | String c _ => Ascii.eqb c Py.LF
  end.

Fixpoint lines_wf (ls : list string) : Prop :=
  match ls with
  | [] => True
  | l :: rest =>
      match rest with
      | [] => term_line l = true ∨ (no_break l = true ∧ Py.empty l = false)
      | l2 :: _ =>
          term_line l = true
          ∧ (ends_cr l = true → starts_lf l2 = false)
          ∧ lines_wf rest
      end
  end.

(** A line of text ended by a newline, to write documents with. *)
Definition ln (s : string) : string := s ++ Py.newline.

(** A small data file: four block lines, one of them a comment, two chains
    of length two; its last line has no newline. *)
Definition doc_ok : list string :=
  [ ln "4 atoms"; ln ""; ln "Atoms # full"; ln "";
    ln "1 1 1  0.5 0.0 0.0"; ln "2 1 1 0.0 0.0 0.0"; ln "# c";
    "3  2 1 0.0 0.0 0.0 9" ].

Definition run_ok : run :=
  {| natoms := 4; atoms_start := 4; atoms_end := 8;
     chain_len := 2; n_chains := 2;
     new_lines :=
       [ ln "4 atoms"; ln ""; ln "Atoms # full"; ln "";
         ln "1 1 1 0.5 0.0 0.0"; ln "2 1 2 0.0 0.0 0.0"; ln "# c";
         ln "3 2 1 0.0 0.0 0.0 9" ] |}.

(** A data file whose only molecule id is 0. *)
Definition doc_mol_zero : list string :=
  [ ln "1 atoms"; ln ""; ln "Atoms"; ln ""; ln "1 0 1 0.0 0.0 0.0" ].

(** A data file whose only block line has two fields. *)
Definition doc_two_fields : list string :=
  [ ln "1 atoms"; ln ""; ln "Atoms"; ln ""; ln "7 7" ].

(** A data file whose only record has an atom id that is no integer. *)
Definition doc_bad_id : list string :=
  [ ln "1 atoms"; ln ""; ln "Atoms"; ln ""; ln "x 1 1 0.0 0.0 0.0" ].

(** A data file with such a record before a record of four fields. *)
Definition doc_bad_id_then_short : list string :=
  [ ln "2 atoms"; ln ""; ln "Atoms"; ln ""; ln "x 1 1 0.0 0.0 0.0";
    ln "2 1 1 0.0" ].

(** A data file with a record of four fields. *)
Definition doc_short : list string :=
  [ ln "2 atoms"; ln ""; ln "Atoms"; ln ""; ln "1 1 1 0.0 0.0 0.0";
    ln "2 1 1 0.0" ].

(** A data file that ends before its two declared atoms. *)
Definition doc_truncated : list string :=
  [ ln "2 atoms"; ln ""; ln "Atoms"; ln ""; ln "1 1 1 0.0 0.0 0.0" ].

(** A world with one file. *)
Definition one_file (path text : string) : world :=
  {| files := {[ path := text ]}; stdout := [] |}.

(** * Properties *)

(** ** The built-ins on concrete inputs *)

Example split_ex :
  Py.split ("  12 3	4.5 " ++ Py.newline) = ["12"; "3"; "4.5"].
Proof. reflexivity. Qed.

Example strip_ex : Py.strip ("  Atoms # x " ++ Py.newline) = "Atoms # x".
Proof. reflexivity. Qed.

Example int_ex :
  Py.int "-1_000" = Some (-1000) ∧ Py.int "1__0" = None ∧ Py.int "x" = None
  ∧ Py.int "007" = Some 7 ∧ Py.int "" = None ∧ Py.int "+" = None.
Proof. repeat split; reflexivity. Qed.

Example str_ex : Py.str 3 = "3" ∧ Py.str (-12) = "-12" ∧ Py.str 0 = "0".
Proof. repeat split; reflexivity. Qed.

Example splitlines_ex :
  Py.splitlines ("a" ++ String Py.CR (String Py.LF "b") ++ Py.newline ++ "c")
  = ["a" ++ String Py.CR (String Py.LF ""); ln "b"; "c"].
Proof. reflexivity. Qed.

(** Chains of length 40: atom 41 starts the second chain. *)
Example pattern_type_chains_of_40 :
  pattern_type 41 40 = 1 ∧ pattern_type 43 40 = 1 ∧ pattern_type 44 40 = 3
  ∧ pattern_type 42 40 = 2.
Proof. repeat split; reflexivity. Qed.

(** ** Strings: [split], [strip] and [join] *)

Section strings.
Implicit Types (s t r : string) (c : ascii).

Lemma app_nil s : "" ++ s = s.
Proof. reflexivity. Qed.

Lemma app_cons c s t : String c s ++ t = String c (s ++ t).
Proof. reflexivity. Qed.

Lemma append_assoc s t r : (s ++ t) ++ r = s ++ (t ++ r).
Proof.
  induction s as [|c s IH]; [done |]. rewrite !app_cons. by rewrite IH.
Qed.

Lemma split_space c s : Py.is_space c = true → Py.split (String c s) = Py.split s.
Proof. intros H. simpl. by rewrite H. Qed.

(** A token followed by white space or by the end is the first field. *)
Lemma split_token_app t r :
  is_token t = true → Py.token_start r = false →
  Py.split (t ++ r) = t :: Py.split r.
Proof.
  unfold is_token. induction t as [|c t IH]; [done |].
  simpl. intros Ht Hr. apply andb_true_iff in Ht as [Hc Ht].
  apply negb_true_iff in Hc. rewrite Hc.
  destruct t as [|d t].
  - rewrite app_nil. by rewrite Hr.
  - rewrite IH by done. simpl in Ht. apply andb_true_iff in Ht as [Hd _].
    rewrite app_cons. simpl. by rewrite Hd.
Qed.

Lemma split_is_token s : Forall (λ t, is_token t = true) (Py.split s).
Proof.
  induction s as [|c s IH]; simpl; [constructor |].
  destruct (Py.is_space c) eqn:Hc; [done |].
  destruct (Py.token_start s) eqn:Hs.
  - destruct (Py.split s) as [|t ts]; inversion IH; subst; constructor; auto.
    + unfold is_token; simpl. by rewrite Hc.
    + unfold is_token in *. simpl. rewrite Hc. simpl.
      by apply andb_true_iff in H1 as [_ ->].
  - constructor; [| done]. unfold is_token; simpl. by rewrite Hc.
Qed.

(** Splitting what [join] and the newline built gives the fields back. *)
Lemma split_join parts :
  Forall (λ t, is_token t = true) parts →
  Py.split (Py.join " " parts ++ Py.newline) = parts.
Proof.
  induction parts as [|p ps IH]; intros Hall; [done |].
  inversion Hall as [|? ? Hp Hps]; subst.
  destruct ps as [|q ps].
  - simpl. by rewrite split_token_app.
  - change (Py.join " " (p :: q :: ps)) with (p ++ " " ++ Py.join " " (q :: ps)).
    rewrite !append_assoc, app_cons, app_nil.
    rewrite split_token_app; [| done | done].
    f_equal. rewrite split_space by done. by apply IH.
Qed.

Lemma split_lstrip s : Py.split (Py.lstrip s) = Py.split s.
Proof.
  induction s as [|c s IH]; [done |]. simpl.
  destruct (Py.is_space c) eqn:Hc; [done |]. simpl. by rewrite Hc.
Qed.

Lemma token_start_rstrip s : Py.token_start (Py.rstrip s) = Py.token_start s.
Proof.
  destruct s as [|c s]; [done |]. simpl.
  destruct (Py.is_space c) eqn:Hc; simpl.
  - destruct (Py.empty (Py.rstrip s)); simpl; [done | by rewrite Hc].
  - by rewrite Hc.
Qed.

Lemma split_rstrip s : Py.split (Py.rstrip s) = Py.split s.
Proof.
  induction s as [|c s IH]; [done |]. simpl.
  destruct (Py.is_space c) eqn:Hc; simpl.
  - destruct (Py.rstrip s) eqn:Hr; simpl in *; [done |]. by rewrite Hc.
  - by rewrite Hc, token_start_rstrip, IH.
Qed.

Lemma split_strip s : Py.split (Py.strip s) = Py.split s.
Proof. unfold Py.strip. by rewrite split_rstrip, split_lstrip. Qed.

Lemma lstrip_head s :
  Py.lstrip s = "" ∨ ∃ c r, Py.lstrip s = String c r ∧ Py.is_space c = false.
Proof.
  induction s as [|c s IH]; [by left |]. simpl.
  destruct (Py.is_space c) eqn:Hc; [done |]. right; eauto.
Qed.

(** The stripped text and the first field start alike. *)
Lemma strip_head s :
  (Py.strip s = "" ∧ Py.split s = [])
  ∨ ∃ c r t ts, Py.strip s = String c r ∧ Py.split s = String c t :: ts.
Proof.
  rewrite <- (split_lstrip s). unfold Py.strip.
  destruct (lstrip_head s) as [-> | (c & r & -> & Hc)]; [by left |].
  right. simpl. rewrite Hc. simpl.
  destruct (Py.token_start r); [destruct (Py.split r) |];
    do 4 eexists; split; reflexivity.
Qed.

Lemma startswith_hash c r : Py.startswith "#" (String c r) = Ascii.eqb "#" c.
Proof.
  change (Py.startswith "#" (String c r))
    with (if Ascii.eqb "#" c then true else false).
  by destruct (Ascii.eqb "#" c).
Qed.

(** Whether a line is skipped can be read off its fields. *)
Lemma skipped_split raw :
  skipped raw = match Py.split raw with
                | [] => true
                | t :: _ => Py.startswith "#" t
                end.
Proof.
  unfold skipped, blank_or_comment.
  destruct (strip_head raw) as [[-> ->] | (c & r & t & ts & -> & ->)]; [done |].
  by rewrite !startswith_hash.
Qed.
End strings.

(** ** Lists: indexing and [range] *)

Section lists.
Context {A : Type}.
Implicit Types (l : list A) (i : Z).

Lemma index_nonneg n i :
  0 ≤ i →
  Py.index n i = if i <? Z.of_nat n then Some (Z.to_nat i) else None.
Proof.
  intros Hi. unfold Py.index.
  destruct (Z.leb_spec 0 i); [| lia]. simpl.
  destruct (Z.ltb_spec i (Z.of_nat n)); [done |].
  destruct (Z.ltb_spec i 0); [lia |]. by rewrite andb_false_r.
Qed.

Lemma getitem_nonneg l i :
  0 ≤ i →
  Py.getitem l i = match l !! Z.to_nat i with
                   | Some x => Ok x
                   | None => Raise IndexError
                   end.
Proof.
  intros Hi. unfold Py.getitem. rewrite index_nonneg by done.
  destruct (Z.ltb_spec i (Z.of_nat (length l))); [done |].
  rewrite lookup_ge_None_2; [done | lia].
Qed.

Lemma setitem_nonneg l i x :
  0 ≤ i →
  Py.setitem l i x = if i <? Py.len l then Ok (<[Z.to_nat i := x]> l)
                     else Raise IndexError.
Proof.
  intros Hi. unfold Py.setitem, Py.len. rewrite index_nonneg by done.
  by destruct (i <? Z.of_nat (length l)).
Qed.

Lemma setitem_length l i x l' :
  Py.setitem l i x = Ok l' → length l' = length l.
Proof.
  unfold Py.setitem. destruct (Py.index _ _); intros; simplify_eq.
  apply length_insert.
Qed.
End lists.

Lemma elem_of_range a b i : i ∈ Py.range a b ↔ a ≤ i < b.
Proof.
  unfold Py.range. rewrite list_elem_of_fmap. split.
  - intros (k & -> & Hk). apply elem_of_seq in Hk. lia.
  - intros Hi. exists (Z.to_nat (i - a)). split; [lia |].
    apply elem_of_seq. lia.
Qed.

Lemma range_nonneg a b : 0 ≤ a → Forall (λ i, 0 ≤ i) (Py.range a b).
Proof.
  intros Ha. apply Forall_forall. intros i Hi%elem_of_range. lia.
Qed.

(** The indices of a range inside the document and the lines they read. *)
Lemma range_block (lines : list string) a b :
  0 ≤ a → b ≤ Py.len lines →
  Forall2 (λ i raw, 0 ≤ i ∧ lines !! Z.to_nat i = Some raw)
          (Py.range a b) (block lines a b).
Proof.
  unfold Py.len. intros Ha Hb.
  apply Forall2_same_length_lookup_2.
  - unfold Py.range, block.
    rewrite length_fmap, length_seq, length_take, length_drop. lia.
  - intros k i raw Hi Hraw. unfold Py.range, block in *.
    rewrite list_lookup_fmap in Hi.
    destruct (seq 0 _ !! k) as [j|] eqn:Hj; simplify_eq/=.
    apply lookup_seq in Hj as [-> Hk].
    apply lookup_take_Some in Hraw as [Hraw _].
    rewrite lookup_drop in Hraw. split; [lia |].
    by replace (Z.to_nat (a + Z.of_nat (0 + k))) with (Z.to_nat a + k)%nat by lia.
Qed.

Lemma elem_of_block (lines : list string) a b raw :
  0 ≤ a → b ≤ Py.len lines →
  raw ∈ block lines a b ↔ ∃ i, a ≤ i < b ∧ lines !! Z.to_nat i = Some raw.
Proof.
  intros Ha Hb. pose proof (range_block lines a b Ha Hb) as HF. split.
  - intros [k Hk]%list_elem_of_lookup.
    destruct (Forall2_lookup_r _ _ _ _ _ HF Hk) as (i & Hi & _ & Hraw).
    exists i. split; [| done].
    apply elem_of_range, list_elem_of_lookup; eauto.
  - intros (i & Hi & Hraw).
    apply elem_of_range, list_elem_of_lookup in Hi as [k Hk].
    destruct (Forall2_lookup_l _ _ _ _ _ HF Hk) as (raw' & Hr & _ & Hraw').
    simplify_eq. apply list_elem_of_lookup; eauto.
Qed.

(** ** The remapper on one record *)

Lemma pattern_index_bound a cl : 0 ≤ ((a - 1) mod cl) mod 4 < 4.
Proof. apply Z.mod_pos_bound. lia. Qed.

Lemma pattern_type_cases a cl :
  pattern_type a cl = 1 ∨ pattern_type a cl = 2 ∨ pattern_type a cl = 3.
Proof.
  unfold pattern_type. pose proof (pattern_index_bound a cl) as Hk.
  assert (Hc : ∃ k : nat, Z.to_nat (((a - 1) mod cl) mod 4) = k ∧ (k < 4)%nat)
    by (eexists; split; [done | lia]).
  destruct Hc as (k & -> & Hk4).
  do 4 (destruct k as [|k]; [simpl; auto |]). lia.
Qed.

(** What the body of the loop computes for one record, case by case. *)
Lemma remap_record_eq raw cl :
  remap_record raw cl =
    if Py.len (Py.split raw) <? 6 then Raise MalformedRecord
    else match int_field 0 raw with
         | None => Raise InvalidLiteral
         | Some atom_id =>
             if cl =? 0 then Raise ZeroDivisionError
             else Ok (retyped raw (pattern_type atom_id cl))
         end.
Proof.
  unfold remap_record, int_field, Py.len.
  destruct (Z.ltb_spec (Z.of_nat (length (Py.split raw))) 6) as [| Hlen]; [done |].
  rewrite getitem_nonneg by done.
  destruct (Py.split raw !! Z.to_nat 0) as [f0|] eqn:Hf0.
  2:{ apply lookup_ge_None in Hf0. lia. }
  change (Z.to_nat 0) with 0%nat in Hf0. rewrite Hf0. simpl.
  unfold Py.int_of. destruct (Py.int f0) as [a|]; simpl; [| done].
  unfold Py.mod_ at 1. destruct (cl =? 0); [done |]. simpl.
  pose proof (pattern_index_bound a cl) as Hk.
  change pattern_len with 4. unfold Py.mod_. simpl (4 =? 0). cbv iota. simpl mbind.
  rewrite getitem_nonneg by lia.
  destruct (base_pattern !! Z.to_nat (((a - 1) mod cl) mod 4)) as [ty|] eqn:Hty.
  2:{ apply lookup_ge_None in Hty. simpl in Hty. lia. }
  apply list_lookup_total_correct in Hty. fold (pattern_type a cl) in Hty.
  subst ty. simpl. rewrite setitem_nonneg by done.
  unfold Py.len. destruct (Z.ltb_spec 2 (Z.of_nat (length (Py.split raw)))); [| lia].
  done.
Qed.

Lemma str_pattern_token a cl : is_token (Py.str (pattern_type a cl)) = true.
Proof. by destruct (pattern_type_cases a cl) as [-> | [-> | ->]]. Qed.

(** The fields of the rewritten line: those of the old one, but for field 2. *)
Lemma split_retyped raw a cl :
  Py.split (retyped raw (pattern_type a cl))
  = <[2%nat := Py.str (pattern_type a cl)]> (Py.split raw).
Proof.
  unfold retyped. apply split_join.
  apply Forall_insert; [apply split_is_token | apply str_pattern_token].
Qed.

(** A rewritten record is a record again, with the same molecule id. *)
Lemma retyped_record raw a cl :
  skipped raw = false → 6 ≤ Py.len (Py.split raw) →
  skipped (retyped raw (pattern_type a cl)) = false
  ∧ mol_record (retyped raw (pattern_type a cl)) = true
  ∧ mol_record raw = true
  ∧ int_field 1 (retyped raw (pattern_type a cl)) = int_field 1 raw.
Proof.
  unfold mol_record, int_field, Py.len. intros Hskip Hlen.
  rewrite (skipped_split (retyped _ _)), split_retyped.
  rewrite skipped_split in Hskip. rewrite (skipped_split raw).
  rewrite length_insert, list_lookup_insert_ne by done.
  destruct (Py.split raw) as [|p0 ps]; [done |].
  destruct ps as [|p1 ps]; [simpl in Hlen; lia |].
  destruct ps as [|p2 ps]; [simpl in Hlen; lia |].
  remember (Py.startswith "#") as hash. simpl. rewrite Hskip. simpl.
  repeat split; try done; apply Z.leb_le; simpl length in *; lia.
Qed.

(** ** The loop of the remapper *)

Lemma remap_loop_length lines cl idxs nl out :
  remap_loop lines cl idxs nl = Ok out → length out = length nl.
Proof.
  revert nl. induction idxs as [|i rest IH]; intros nl; simpl.
  - by intros [= ->].
  - destruct (Py.getitem lines i) as [raw|]; simpl; [| done].
    destruct (blank_or_comment (Py.strip raw)); [by apply IH |].
    destruct (remap_record raw cl) as [new|]; simpl; [| done].
    destruct (Py.setitem nl i new) as [nl'|] eqn:Hset; simpl; [| done].
    intros Hout%IH. rewrite Hout. by eapply setitem_length.
Qed.

(** One turn of the loop at an index inside the document. *)
Lemma remap_loop_cons lines cl i rest nl raw :
  0 ≤ i → lines !! Z.to_nat i = Some raw → length nl = length lines →
  remap_loop lines cl (i :: rest) nl =
    if skipped raw then remap_loop lines cl rest nl
    else match remap_record raw cl with
         | Ok new => remap_loop lines cl rest (<[Z.to_nat i := new]> nl)
         | Raise e => Raise e
         end.
Proof.
  intros Hi Hraw Hlen. simpl. rewrite getitem_nonneg, Hraw by done. simpl.
  fold (skipped raw). destruct (skipped raw); [done |].
  destruct (remap_record raw cl) as [new|]; simpl; [| done].
  rewrite setitem_nonneg by done. unfold Py.len.
  apply lookup_lt_Some in Hraw.
  destruct (Z.ltb_spec i (Z.of_nat (length nl))); [done | lia].
Qed.

Lemma remap_loop_index_error lines cl i rest nl :
  0 ≤ i → lines !! Z.to_nat i = None →
  remap_loop lines cl (i :: rest) nl = Raise IndexError.
Proof. intros Hi Hraw. simpl. by rewrite getitem_nonneg, Hraw. Qed.

(** What a successful loop leaves at each position. *)
Lemma remap_loop_ok lines cl idxs nl out :
  Forall (λ i, 0 ≤ i) idxs → length nl = length lines →
  remap_loop lines cl idxs nl = Ok out →
  ∀ (k : nat) raw, lines !! k = Some raw →
    (Z.of_nat k ∉ idxs ∨ skipped raw = true → out !! k = nl !! k)
    ∧ (Z.of_nat k ∈ idxs → skipped raw = false →
       ∃ new, remap_record raw cl = Ok new ∧ out !! k = Some new).
Proof.
  intros Hidx. revert nl.
  induction Hidx as [|i rest Hi Hrest IH]; intros nl Hlen Hout k raw Hraw.
  { simpl in Hout. simplify_eq. split; [done |]. by intros ?%elem_of_nil. }
  destruct (lines !! Z.to_nat i) as [raw_i|] eqn:Hraw_i.
  2:{ by rewrite remap_loop_index_error in Hout. }
  rewrite (remap_loop_cons _ _ _ _ _ raw_i) in Hout by done.
  assert (Hki : Z.of_nat k = i → raw = raw_i).
  { intros <-. rewrite Nat2Z.id in Hraw_i. congruence. }
  destruct (skipped raw_i) eqn:Hskip_i.
  - destruct (IH nl Hlen Hout k raw Hraw) as [IH1 IH2]. split.
    + intros [Hk | Hs]; apply IH1; [left | by right].
      intros ?. apply Hk, elem_of_cons. by right.
    + intros [->%Hki | Hk]%elem_of_cons Hs; [congruence | by apply IH2].
  - destruct (remap_record raw_i cl) as [new_i|] eqn:Hnew; [| done].
    assert (Hlen' : length (<[Z.to_nat i := new_i]> nl) = length lines)
      by by rewrite length_insert.
    destruct (IH _ Hlen' Hout k raw Hraw) as [IH1 IH2]. split.
    + intros Hk. assert (Z.of_nat k ≠ i).
      { intros Heq. destruct Hk as [Hk | Hs]; [apply Hk, elem_of_cons; by left |].
        apply Hki in Heq. congruence. }
      rewrite <- (list_lookup_insert_ne nl (Z.to_nat i) k new_i) by lia.
      apply IH1. destruct Hk as [Hk | Hs]; [left | by right].
      intros ?. apply Hk, elem_of_cons. by right.
    + intros Hk Hs. destruct (decide (Z.of_nat k ∈ rest)) as [Hin | Hnin].
      { by apply IH2. }
      apply elem_of_cons in Hk as [Hk | Hk]; [| done].
      apply Hki in Hk as Heq. subst raw_i. exists new_i. split; [done |].
      rewrite IH1 by by left. subst i. rewrite Nat2Z.id.
      apply list_lookup_insert_eq. apply lookup_lt_Some in Hraw. lia.
Qed.

(** Where a failure of the loop comes from. *)
Lemma remap_loop_raise lines cl idxs nl e :
  Forall (λ i, 0 ≤ i) idxs → length nl = length lines →
  remap_loop lines cl idxs nl = Raise e →
  ∃ i, i ∈ idxs ∧
    ((lines !! Z.to_nat i = None ∧ e = IndexError)
     ∨ ∃ raw, lines !! Z.to_nat i = Some raw ∧ skipped raw = false
              ∧ remap_record raw cl = Raise e).
Proof.
  intros Hidx. revert nl.
  induction Hidx as [|i rest Hi Hrest IH]; intros nl Hlen Hout; [done |].
  destruct (lines !! Z.to_nat i) as [raw_i|] eqn:Hraw_i.
  2:{ rewrite remap_loop_index_error in Hout by done. simplify_eq.
      exists i. split; [apply elem_of_cons; by left | by left]. }
  rewrite (remap_loop_cons _ _ _ _ _ raw_i) in Hout by done.
  destruct (skipped raw_i) eqn:Hskip_i.
  - destruct (IH nl Hlen Hout) as (j & Hj & H). exists j. split; [apply elem_of_cons; by right | done].
  - destruct (remap_record raw_i cl) as [new_i|] eqn:Hnew.
    + assert (Hlen' : length (<[Z.to_nat i := new_i]> nl) = length lines)
        by by rewrite length_insert.
      destruct (IH _ Hlen' Hout) as (j & Hj & H).
      exists j. split; [apply elem_of_cons; by right | done].
    + simplify_eq. exists i. split; [apply elem_of_cons; by left |]. right. eauto.
Qed.

(** ** Chain inference *)

(** The loop of chain inference, as a function of the lines it reads. *)
Lemma collect_mol_ids_spec lines idxs raws acc :
  Forall2 (λ i raw, 0 ≤ i ∧ lines !! Z.to_nat i = Some raw) idxs raws →
  collect_mol_ids lines idxs acc =
    match mapM (int_field 1) (List.filter mol_record raws) with
    | Some ids => Ok (acc ++ ids)%list
    | None => Raise InvalidLiteral
    end.
Proof.
  intros HF. revert acc.
  induction HF as [|i raw idxs raws [Hi Hraw] HF IH]; intros acc.
  { simpl. by rewrite app_nil_r. }
  simpl collect_mol_ids. rewrite getitem_nonneg, Hraw by done. simpl mbind.
  fold (skipped raw). rewrite split_strip. simpl List.filter.
  unfold mol_record at 1. destruct (skipped raw); [apply IH |]. simpl negb.
  unfold Py.len. rewrite andb_true_l.
  destruct (Z.ltb_spec (Z.of_nat (length (Py.split raw))) 3) as [Hlt | Hge].
  { destruct (Z.leb_spec 3 (Z.of_nat (length (Py.split raw)))); [lia | apply IH]. }
  destruct (Z.leb_spec 3 (Z.of_nat (length (Py.split raw)))); [| lia].
  rewrite getitem_nonneg by done. change (Z.to_nat 1) with 1%nat.
  simpl mapM. unfold int_field in *.
  destruct (Py.split raw !! 1%nat) as [field|] eqn:Hfield.
  2:{ apply lookup_ge_None in Hfield. lia. }
  simpl. unfold Py.int_of. destruct (Py.int field) as [m|]; simpl; [| done].
  rewrite IH. destruct (mapM _ _); simpl; [| done].
  by rewrite <- app_assoc.
Qed.

Lemma infer_spec lines a b :
  0 ≤ a → b ≤ Py.len lines →
  infer_chain_length_and_count lines a b =
    match mapM (int_field 1) (List.filter mol_record (block lines a b)) with
    | Some ids => chain_shape (b - a) ids
    | None => Raise InvalidLiteral
    end.
Proof.
  intros Ha Hb. unfold infer_chain_length_and_count.
  rewrite (collect_mol_ids_spec _ _ _ _ (range_block lines a b Ha Hb)).
  by destruct (mapM _ _).
Qed.

Lemma max_foldl m ms :
  Py.max m ms ∈ m :: ms ∧ ∀ x, x ∈ m :: ms → x ≤ Py.max m ms.
Proof.
  unfold Py.max. revert m. induction ms as [|y ms IH]; intros m; simpl.
  - split; [apply elem_of_cons; by left |].
    intros x [-> | []%elem_of_nil]%elem_of_cons. lia.
  - destruct (IH (Z.max m y)) as [Hin Hge]. split.
    + apply elem_of_cons in Hin as [Hin | Hin].
      * rewrite Hin. destruct (Z.max_spec m y) as [[_ ->] | [_ ->]];
          rewrite !elem_of_cons; auto.
      * rewrite !elem_of_cons; auto.
    + intros x Hx. rewrite !elem_of_cons in Hx.
      destruct Hx as [-> | [-> | Hx]].
      * etrans; [| apply Hge; apply elem_of_cons; by left]. lia.
      * etrans; [| apply Hge; apply elem_of_cons; by left]. lia.
      * apply Hge. apply elem_of_cons; by right.
Qed.

(** What follows the loop, case by case. *)
Lemma chain_shape_eq n m ms :
  chain_shape n (m :: ms) =
    if Py.max m ms =? 0 then Raise ZeroDivisionError
    else if n mod Py.max m ms =? 0 then Ok (n / Py.max m ms, Py.max m ms)
    else Raise IndivisibleChainCount.
Proof.
  unfold chain_shape, Py.mod_, Py.floordiv.
  destruct (Py.max m ms =? 0); [done |]. simpl.
  by destruct (n mod Py.max m ms =? 0).
Qed.

(** The ids collected from a range are no more than its indices. *)
Lemma collect_mol_ids_length lines idxs acc ids :
  collect_mol_ids lines idxs acc = Ok ids →
  (length ids ≤ length acc + length idxs)%nat.
Proof.
  revert acc. induction idxs as [|i rest IH]; intros acc; simpl.
  - intros [= ->]. lia.
  - destruct (Py.getitem lines i) as [raw|]; simpl; [| done].
    destruct (blank_or_comment _); [intros ?%IH; lia |].
    destruct (_ <? 3); [intros ?%IH; lia |].
    destruct (Py.getitem _ 1) as [f|]; simpl; [| done].
    destruct (Py.int_of f) as [z|]; simpl; [| done].
    intros ?%IH. rewrite length_app in *. simpl in *. lia.
Qed.

Lemma range_length a b : length (Py.range a b) = Z.to_nat (b - a).
Proof. unfold Py.range. by rewrite length_fmap, length_seq. Qed.

(** A successful inference has read a block that is not empty, and its
    chain count divides the block size into a chain length that is not 0. *)
Lemma infer_ok lines a b cl nc :
  infer_chain_length_and_count lines a b = Ok (cl, nc) →
  ∃ m ms, collect_mol_ids lines (Py.range a b) [] = Ok (m :: ms)
    ∧ nc = Py.max m ms ∧ nc ≠ 0 ∧ (b - a) mod nc = 0 ∧ cl = (b - a) / nc
    ∧ a < b ∧ cl ≠ 0.
Proof.
  unfold infer_chain_length_and_count.
  destruct (collect_mol_ids _ _ _) as [ids|] eqn:Hids; simpl; [| done].
  destruct ids as [|m ms]; [done |]. rewrite chain_shape_eq.
  destruct (Z.eqb_spec (Py.max m ms) 0) as [| Hnc]; [done |].
  destruct (Z.eqb_spec ((b - a) mod Py.max m ms) 0) as [Hmod |]; [| done].
  intros [= <- <-]. exists m, ms.
  apply collect_mol_ids_length in Hids. rewrite range_length in Hids.
  simpl in Hids. assert (a < b) by lia.
  repeat split; try done.
  intros Hq. pose proof (Z.div_mod (b - a) _ Hnc) as Hdm.
  rewrite Hq, Hmod in Hdm. lia.
Qed.

(** ** The block locator *)

Lemma atoms_header_None lines i0 :
  atoms_header lines i0 = None ↔
  ∀ line, line ∈ lines → Py.startswith "Atoms" (Py.strip line) = false.
Proof.
  revert i0. induction lines as [|l lines IH]; intros i0; simpl.
  - split; [| done]. by intros _ line ?%elem_of_nil.
  - destruct (Py.startswith "Atoms" (Py.strip l)) eqn:Hl.
    + split; [done |]. intros H. specialize (H l). rewrite Hl in H.
      discriminate H. apply elem_of_cons; by left.
    + rewrite IH. split.
      * intros H line [-> | ?]%elem_of_cons; auto.
      * intros H line ?. apply H. apply elem_of_cons; by right.
Qed.

Lemma atoms_header_Some lines i0 i :
  atoms_header lines i0 = Some i →
  ∃ k : nat, i = i0 + Z.of_nat k ∧ first_atoms_line lines k.
Proof.
  revert i0. induction lines as [|l lines IH]; intros i0; simpl; [done |].
  destruct (Py.startswith "Atoms" (Py.strip l)) eqn:Hl.
  - intros [= <-]. exists 0%nat. split; [lia |]. split; [by exists l |].
    intros; lia.
  - intros (k & -> & [(line & Hline & Hh) Hbefore])%IH.
    exists (S k). split; [lia |]. split; [by exists line |].
    intros [|j] line' Hj; simpl; [by intros [= <-] |].
    apply Hbefore. lia.
Qed.

Lemma first_atoms_line_unique lines k k' :
  first_atoms_line lines k → first_atoms_line lines k' → k = k'.
Proof.
  intros [(l & Hl & Hh) Hb] [(l' & Hl' & Hh') Hb'].
  destruct (lt_eq_lt_dec k k') as [[Hlt | ->] | Hlt]; [| done |].
  - rewrite (Hb' _ _ Hlt Hl) in Hh. done.
  - rewrite (Hb _ _ Hlt Hl') in Hh'. done.
Qed.

Lemma first_atoms_line_header lines k :
  first_atoms_line lines k → atoms_header lines 0 = Some (Z.of_nat k).
Proof.
  intros Hk. destruct (atoms_header lines 0) as [i|] eqn:Hi.
  - apply atoms_header_Some in Hi as (k' & -> & Hk').
    f_equal. rewrite (first_atoms_line_unique _ _ _ Hk Hk'). lia.
  - destruct Hk as [(l & Hl & Hh) _].
    rewrite atoms_header_None in Hi.
    rewrite Hi in Hh; [done |]. by eapply list_elem_of_lookup_2.
Qed.

(** ** The stages together *)

Lemma find_atoms_block_ok lines n a b :
  find_atoms_block lines n = Ok (a, b) →
  2 ≤ a ∧ b = a + n ∧ b ≤ Py.len lines.
Proof.
  unfold find_atoms_block.
  destruct (atoms_header lines 0) as [i|] eqn:Hi; [| done].
  apply atoms_header_Some in Hi as (k & -> & _).
  destruct (Z.ltb_spec (Py.len lines) (0 + Z.of_nat k + 2 + n)); [done |].
  intros [= <- <-]. lia.
Qed.

Lemma validate_ok lines n a b cl nc :
  validate lines = Ok (n, (a, b), (cl, nc)) →
  parse_num_atoms lines = Ok n
  ∧ find_atoms_block lines n = Ok (a, b)
  ∧ infer_chain_length_and_count lines a b = Ok (cl, nc)
  ∧ 2 ≤ a ∧ a < b ∧ b ≤ Py.len lines ∧ cl ≠ 0.
Proof.
  unfold validate.
  destruct (parse_num_atoms lines) as [n'|]; simpl; [| done].
  destruct (find_atoms_block lines n') as [[a' b']|] eqn:Hfind; simpl; [| done].
  destruct (infer_chain_length_and_count lines a' b') as [[cl' nc']|] eqn:Hinf;
    simpl; [| done].
  intros [= -> -> -> -> ->].
  destruct (find_atoms_block_ok _ _ _ _ Hfind) as (? & ? & ?).
  destruct (infer_ok _ _ _ _ _ Hinf) as (? & ? & ? & ? & ? & ? & ? & ? & ?).
  done.
Qed.

Lemma pipeline_ok lines r :
  pipeline lines = Ok r ↔ stages_succeed lines r.
Proof.
  unfold pipeline, validate, stages_succeed. destruct r as [n a b cl nc nl]. simpl.
  destruct (parse_num_atoms lines) as [n'|]; simpl.
  2:{ split; [done |]. by intros [? _]. }
  destruct (find_atoms_block lines n') as [[a' b']|] eqn:Hf; simpl.
  2:{ split; [done |]. intros (Hn & ? & _). simplify_eq. congruence. }
  destruct (infer_chain_length_and_count lines a' b') as [[cl' nc']|] eqn:Hi;
    simpl.
  2:{ split; [done |]. intros (Hn & ? & ? & _). simplify_eq. congruence. }
  destruct (remap_to_acag30 lines a' b' cl') as [nl'|] eqn:Hr; simpl.
  - split; [by intros [= -> -> -> -> -> ->] |].
    intros (? & ? & ? & ?). simplify_eq. congruence.
  - split; [done |]. intros (? & ? & ? & ?). simplify_eq. congruence.
Qed.

Lemma pipeline_fails lines : fails (pipeline lines) ↔ stage_fails lines.
Proof.
  unfold pipeline, validate, stage_fails, fails.
  destruct (parse_num_atoms lines) as [n|] eqn:Hn; simpl.
  2:{ split; eauto. }
  destruct (find_atoms_block lines n) as [[a b]|] eqn:Hab; simpl.
  2:{ split; [| eauto]. intros _. right; left. eauto. }
  destruct (infer_chain_length_and_count lines a b) as [[cl nc]|] eqn:Hs; simpl.
  2:{ split; [| eauto]. intros _. right; right; left. exists n, a, b. eauto. }
  destruct (remap_to_acag30 lines a b cl) as [nl|] eqn:Hr; simpl.
  2:{ split; [| eauto]. intros _. right; right; right.
      exists n, a, b, cl, nc. rewrite Hr. eauto. }
  split; [by intros [e ?] |].
  intros [[e ?] | [(n' & ? & [e ?]) | [(n' & a' & b' & ? & ? & [e ?])
    | (n' & a' & b' & cl' & nc' & ? & ? & ? & [e ?])]]];
    simplify_eq; congruence.
Qed.

(** [main] case by case: what it returns and the world it leaves. *)
Lemma main_eq input output w :
  main input output w =
    match files w !! input with
    | None => (Raise FileNotFoundError, w)
    | Some text =>
        let lines := Py.splitlines text in
        match validate lines with
        | Raise e => (Raise e, w)
        | Ok (n, (a, b), (cl, nc)) =>
            let detected :=
              "Detected " ++ Py.str n ++ " atoms, " ++ Py.str nc
              ++ " chains, " ++ Py.str cl ++ " nucleotides per chain." in
            match remap_to_acag30 lines a b cl with
            | Raise e =>
                (Raise e, {| files := files w; stdout := (stdout w ++ [detected])%list |})
            | Ok nl =>
                let wrote := "Wrote remapped data file to: " ++ output in
                (Ok (),
                 {| files := <[output := Py.join "" nl]> (files w);
                    stdout := ((stdout w ++ [detected]) ++ [wrote])%list |})
            end
        end
    end.
Proof.
  unfold main, validate, read_text, lift, print, write_text.
  unfold mbind, io_bind, result_bind.
  destruct (files w !! input) as [text|]; [| done].
  destruct (parse_num_atoms _) as [n|]; [| done].
  destruct (find_atoms_block _ n) as [[a b]|]; [| done]. simpl.
  destruct (infer_chain_length_and_count _ a b) as [[cl nc]|]; [| done].
  by destruct (remap_to_acag30 _ a b cl) as [nl|].
Qed.

Example pipeline_doc_ok : pipeline doc_ok = Ok run_ok.
Proof. reflexivity. Qed.

(** ** The remapper in a successful run *)

Lemma run_facts lines r :
  pipeline lines = Ok r →
  stages_succeed lines r
  ∧ 2 ≤ atoms_start r ∧ atoms_start r < atoms_end r
  ∧ atoms_end r ≤ Py.len lines ∧ chain_len r ≠ 0.
Proof.
  intros Hr%pipeline_ok. split; [done |].
  destruct Hr as (_ & Hfind & Hinf & _).
  destruct (find_atoms_block_ok _ _ _ _ Hfind) as (? & ? & ?).
  destruct (infer_ok _ _ _ _ _ Hinf) as (? & ? & ? & ? & ? & ? & ? & ? & ?).
  done.
Qed.

(** A record of the block is replaced by its retyped line. *)
Lemma run_record lines r (k : nat) raw :
  pipeline lines = Ok r →
  atoms_start r ≤ Z.of_nat k < atoms_end r →
  lines !! k = Some raw → skipped raw = false →
  ∃ atom_id, 6 ≤ Py.len (Py.split raw) ∧ int_field 0 raw = Some atom_id
    ∧ new_lines r !! k
      = Some (retyped raw (pattern_type atom_id (chain_len r))).
Proof.
  intros (Hst & Ha & _ & _ & Hcl)%run_facts Hk Hraw Hskip.
  destruct Hst as (_ & _ & _ & Hremap). unfold remap_to_acag30 in Hremap.
  eapply remap_loop_ok in Hremap as [_ Hrec];
    [| apply range_nonneg; lia | done | exact Hraw].
  destruct Hrec as (new & Hnew & Hout); [by apply elem_of_range | done |].
  rewrite remap_record_eq in Hnew.
  destruct (Z.ltb_spec (Py.len (Py.split raw)) 6); [done |].
  destruct (int_field 0 raw) as [atom_id|]; [| done].
  destruct (Z.eqb_spec (chain_len r) 0); [done |].
  exists atom_id. by simplify_eq.
Qed.

(** Every other line is left as it is. *)
Lemma run_other lines r (k : nat) :
  pipeline lines = Ok r →
  ¬ (atoms_start r ≤ Z.of_nat k < atoms_end r)
  ∨ (∃ raw, lines !! k = Some raw ∧ skipped raw = true) →
  new_lines r !! k = lines !! k.
Proof.
  intros (Hst & Ha & _ & _ & Hcl)%run_facts Hk.
  destruct Hst as (_ & _ & _ & Hremap). unfold remap_to_acag30 in Hremap.
  destruct (lines !! k) as [raw|] eqn:Hraw.
  - eapply remap_loop_ok in Hremap as [Hsame _];
      [| apply range_nonneg; lia | done | exact Hraw].
    rewrite Hsame; [done |].
    destruct Hk as [Hk | (raw' & ? & ?)]; [left | right; congruence].
    by rewrite elem_of_range.
  - apply remap_loop_length in Hremap.
    apply lookup_ge_None in Hraw. apply lookup_ge_None. lia.
Qed.

Lemma run_length lines r :
  pipeline lines = Ok r → length (new_lines r) = length lines.
Proof.
  intros (Hst & _)%run_facts. destruct Hst as (_ & _ & _ & Hremap).
  by apply remap_loop_length in Hremap.
Qed.

(** C9. In a run whose four stages succeed, the document the remapper
    returns has exactly as many lines as the input document. *)
Theorem remap_preserves_line_count lines r :
  pipeline lines = Ok r → length (new_lines r) = length lines.
Proof. apply run_length. Qed.

Lemma remap_preserves_line_count_witness :
  pipeline doc_ok = Ok run_ok ∧ length (new_lines run_ok) = length doc_ok.
Proof.
  split; [reflexivity |].
  apply (remap_preserves_line_count doc_ok run_ok). reflexivity.
Defined.

(** C1. In a run whose four stages succeed, every line [i] of the Atoms
    block that is neither blank nor comment-prefixed has an integer
    [atom_id] in field 0, and field 2 of the line written in its place is
    the text of [pattern[((atom_id - 1) mod chain_len) mod 4]] for the
    pattern [1, 2, 1, 3], where [chain_len] is what chain inference
    returned on the block. *)
Theorem remap_type_by_pattern lines r i raw :
  pipeline lines = Ok r →
  atoms_start r ≤ i < atoms_end r →
  lines !! Z.to_nat i = Some raw →
  blank_or_comment (Py.strip raw) = false →
  ∃ n_chains atom_id new_type new_line,
    infer_chain_length_and_count lines (atoms_start r) (atoms_end r)
      = Ok (chain_len r, n_chains)
    ∧ int_field 0 raw = Some atom_id
    ∧ [1; 2; 1; 3] !! Z.to_nat (((atom_id - 1) mod chain_len r) mod 4)
      = Some new_type
    ∧ new_lines r !! Z.to_nat i = Some new_line
    ∧ Py.split new_line !! 2%nat = Some (Py.str new_type).
Proof.
  intros Hr Hi Hraw Hskip.
  destruct (run_facts _ _ Hr) as ((_ & _ & Hinf & _) & Ha & _).
  destruct (run_record lines r (Z.to_nat i) raw) as (a & Hlen & Ha0 & Hnew);
    [done | lia | done | done |].
  exists (n_chains r), a, (pattern_type a (chain_len r)).
  eexists. split; [done |]. split; [done |]. split; [| split; [exact Hnew |]].
  - apply (list_lookup_lookup_total_lt base_pattern).
    pose proof (pattern_index_bound a (chain_len r)). simpl. lia.
  - rewrite split_retyped. apply list_lookup_insert_eq.
    unfold Py.len in Hlen. lia.
Qed.

Lemma remap_type_by_pattern_witness :
  ∃ n_chains atom_id new_type new_line,
    infer_chain_length_and_count doc_ok 4 8 = Ok (2, n_chains)
    ∧ int_field 0 (ln "2 1 1 0.0 0.0 0.0") = Some atom_id
    ∧ [1; 2; 1; 3] !! Z.to_nat (((atom_id - 1) mod 2) mod 4) = Some new_type
    ∧ new_lines run_ok !! Z.to_nat 5 = Some new_line
    ∧ Py.split new_line !! 2%nat = Some (Py.str new_type).
Proof.
  apply (remap_type_by_pattern doc_ok run_ok 5 (ln "2 1 1 0.0 0.0 0.0"));
    [reflexivity | simpl; lia | reflexivity | reflexivity].
Defined.

(** C2. In a run whose four stages succeed, the remapper changes only
    field 2 of the block lines that are neither blank nor comment-prefixed:
    such a line is written as its fields, field 2 replaced, joined by single
    spaces and closed by a newline, so it has the same number of fields and
    every field but field 2 is the same token; every line outside the block
    and every blank or comment line is the line of the input. *)
Theorem remap_changes_only_type_field lines r :
  pipeline lines = Ok r →
  (∀ k : nat, ¬ (atoms_start r ≤ Z.of_nat k < atoms_end r) →
     new_lines r !! k = lines !! k)
  ∧ (∀ (k : nat) raw, lines !! k = Some raw →
       blank_or_comment (Py.strip raw) = true →
       new_lines r !! k = Some raw)
  ∧ (∀ (k : nat) raw, atoms_start r ≤ Z.of_nat k < atoms_end r →
       lines !! k = Some raw →
       blank_or_comment (Py.strip raw) = false →
       ∃ new_type new_line,
         new_lines r !! k = Some new_line
         ∧ new_line
           = Py.join " " (<[2%nat := new_type]> (Py.split raw)) ++ Py.newline
         ∧ length (Py.split new_line) = length (Py.split raw)
         ∧ ∀ j : nat, j ≠ 2%nat →
             Py.split new_line !! j = Py.split raw !! j).
Proof.
  intros Hr. repeat split.
  - intros k Hk. apply run_other; auto.
  - intros k raw Hraw Hskip. rewrite <- Hraw. apply run_other; eauto.
  - intros k raw Hk Hraw Hskip.
    destruct (run_record lines r k raw) as (a & Hlen & Ha0 & Hnew); try done.
    exists (Py.str (pattern_type a (chain_len r))). eexists.
    split; [exact Hnew |]. split; [done |].
    rewrite split_retyped, length_insert. split; [done |].
    intros j Hj. by apply list_lookup_insert_ne.
Qed.

Lemma remap_changes_only_type_field_witness :
  new_lines run_ok !! 0%nat = doc_ok !! 0%nat
  ∧ new_lines run_ok !! 6%nat = Some (ln "# c")
  ∧ ∃ new_type new_line,
      new_lines run_ok !! 7%nat = Some new_line
      ∧ new_line
        = Py.join " " (<[2%nat := new_type]> (Py.split "3  2 1 0.0 0.0 0.0 9"))
          ++ Py.newline
      ∧ length (Py.split new_line) = length (Py.split "3  2 1 0.0 0.0 0.0 9")
      ∧ ∀ j : nat, j ≠ 2%nat →
          Py.split new_line !! j = Py.split "3  2 1 0.0 0.0 0.0 9" !! j.
Proof.
  destruct (remap_changes_only_type_field doc_ok run_ok) as (H1 & H2 & H3);
    [reflexivity |].
  split; [apply H1; simpl; lia |].
  split; [apply (H2 6%nat); reflexivity |].
  apply (H3 7%nat); [simpl; lia | reflexivity | reflexivity].
Defined.

(** ** Chain inference on the output *)

Lemma records_ext raws raws' :
  Forall2 (λ raw raw', mol_record raw = mol_record raw'
                       ∧ int_field 1 raw = int_field 1 raw') raws raws' →
  mapM (int_field 1) (List.filter mol_record raws)
  = mapM (int_field 1) (List.filter mol_record raws').
Proof.
  induction 1 as [|raw raw' raws raws' [Hrec Hint] _ IH]; [done |].
  simpl. rewrite <- Hrec. destruct (mol_record raw); [| done].
  simpl. by rewrite Hint, IH.
Qed.

Lemma block_lookup (lines : list string) a b (j : nat) raw :
  0 ≤ a → block lines a b !! j = Some raw →
  lines !! (Z.to_nat a + j)%nat = Some raw ∧ a + Z.of_nat j < b.
Proof.
  unfold block. intros Ha [Hraw Hj]%lookup_take_Some.
  rewrite lookup_drop in Hraw. split; [done | lia].
Qed.

(** C8. In a run whose four stages succeed, chain inference on the output
    document over the same block range returns the same [chain_len] and
    [n_chains] as on the input document. *)
Theorem infer_same_on_output lines r :
  pipeline lines = Ok r →
  infer_chain_length_and_count (new_lines r) (atoms_start r) (atoms_end r)
  = Ok (chain_len r, n_chains r)
  ∧ infer_chain_length_and_count lines (atoms_start r) (atoms_end r)
    = Ok (chain_len r, n_chains r).
Proof.
  intros Hr. pose proof (run_length _ _ Hr) as Hlen.
  destruct (run_facts _ _ Hr) as ((_ & _ & Hinf & _) & Ha & _ & Hb & _).
  split; [| done]. rewrite <- Hinf.
  rewrite !infer_spec by (unfold Py.len in *; lia).
  rewrite (records_ext (block lines (atoms_start r) (atoms_end r))
             (block (new_lines r) (atoms_start r) (atoms_end r))); [done |].
  apply Forall2_same_length_lookup_2.
  { unfold block. rewrite !length_take, !length_drop. lia. }
  intros j raw raw' [Hraw Hj]%block_lookup [Hraw' _]%block_lookup; [| lia..].
  destruct (skipped raw) eqn:Hskip.
  - rewrite (run_other lines r) in Hraw' by eauto. by simplify_eq.
  - destruct (run_record lines r (Z.to_nat (atoms_start r) + j) raw Hr)
      as (a & Hfields & _ & Hnew); [lia | done | done |].
    rewrite Hnew in Hraw'. simplify_eq.
    destruct (retyped_record raw a (chain_len r) Hskip Hfields)
      as (_ & ? & ? & ?).
    split; congruence.
Qed.

Lemma infer_same_on_output_witness :
  infer_chain_length_and_count (new_lines run_ok) 4 8 = Ok (2, 2)
  ∧ infer_chain_length_and_count doc_ok 4 8 = Ok (2, 2).
Proof. apply (infer_same_on_output doc_ok run_ok). reflexivity. Defined.

(** ** No division by zero *)

Lemma getitem_raise {A} (l : list A) i e :
  Py.getitem l i = Raise e → e = IndexError.
Proof.
  unfold Py.getitem. destruct (Py.index _ _) as [k|]; [| congruence].
  destruct (l !! k); congruence.
Qed.

Lemma setitem_raise {A} (l : list A) i x e :
  Py.setitem l i x = Raise e → e = IndexError.
Proof. unfold Py.setitem. destruct (Py.index _ _); congruence. Qed.

Lemma remap_loop_no_zero_division lines cl idxs nl :
  cl ≠ 0 → remap_loop lines cl idxs nl ≠ Raise ZeroDivisionError.
Proof.
  intros Hcl. revert nl. induction idxs as [|i rest IH]; intros nl; simpl.
  - done.
  - destruct (Py.getitem lines i) as [raw|] eqn:Hget; simpl.
    2:{ apply getitem_raise in Hget. congruence. }
    destruct (blank_or_comment _); [apply IH |].
    rewrite remap_record_eq.
    destruct (_ <? 6); [done |].
    destruct (int_field 0 raw); [| done].
    destruct (Z.eqb_spec cl 0); [done |]. simpl.
    destruct (Py.setitem nl i _) eqn:Hset; simpl; [apply IH |].
    apply setitem_raise in Hset. congruence.
Qed.

(** C10. When chain inference succeeds and every molecule id it collected
    is at least 1, the chain count lies between 1 and the block size and
    divides it, the chain length is at least 1, and so the remainder
    [(atom_id - 1) % chain_len] of the remapper is defined: the remapper
    never raises [ZeroDivisionError] on that chain length. *)
Theorem chain_len_positive lines a b mol_ids cl nc :
  collect_mol_ids lines (Py.range a b) [] = Ok mol_ids →
  infer_chain_length_and_count lines a b = Ok (cl, nc) →
  (∀ id, id ∈ mol_ids → 1 ≤ id) →
  1 ≤ nc ≤ b - a ∧ (nc | b - a) ∧ 1 ≤ cl
  ∧ (∀ atom_id, Py.mod_ (atom_id - 1) cl = Ok ((atom_id - 1) mod cl))
  ∧ ∀ lines' a' b', remap_to_acag30 lines' a' b' cl ≠ Raise ZeroDivisionError.
Proof.
  intros Hids Hinf Hpos.
  destruct (infer_ok _ _ _ _ _ Hinf)
    as (m & ms & Hids' & Hnc & Hnc0 & Hmod & Hcl & Hab & Hcl0).
  rewrite Hids in Hids'. simplify_eq.
  destruct (max_foldl m ms) as [Hin _]. apply Hpos in Hin.
  set (nc := Py.max m ms) in *.
  pose proof (Z.div_mod (b - a) nc Hnc0) as Hdm. rewrite Hmod in Hdm.
  assert (1 ≤ (b - a) / nc) by nia.
  split; [split; [done | nia] |].
  split; [exists ((b - a) / nc); lia |].
  split; [done |]. split.
  - intros atom_id. unfold Py.mod_.
    destruct (Z.eqb_spec ((b - a) / nc) 0); [lia | done].
  - intros lines' a' b'. by apply remap_loop_no_zero_division.
Qed.

Lemma chain_len_positive_witness :
  1 ≤ 2 ≤ 8 - 4 ∧ (2 | 8 - 4) ∧ 1 ≤ 2
  ∧ (∀ atom_id, Py.mod_ (atom_id - 1) 2 = Ok ((atom_id - 1) mod 2))
  ∧ ∀ lines' a' b', remap_to_acag30 lines' a' b' 2 ≠ Raise ZeroDivisionError.
Proof.
  apply (chain_len_positive doc_ok 4 8 [1; 1; 2] 2 2);
    [reflexivity | reflexivity |].
  intros id Hid. rewrite !elem_of_cons in Hid.
  destruct Hid as [-> | [-> | [-> | []%elem_of_nil]]]; lia.
Defined.

(** C7. The block locator returns the range that starts two lines after the
    first line whose stripped text starts with "Atoms" and spans [natoms]
    lines; it fails with MissingSection exactly when no line qualifies, and
    with TruncatedDocument exactly when the end of that range is past the
    number of lines of the document. *)
Theorem find_atoms_block_spec lines natoms :
  (find_atoms_block lines natoms = Raise MissingSection
   ↔ ∀ line, line ∈ lines → Py.startswith "Atoms" (Py.strip line) = false)
  ∧ ∀ k : nat, first_atoms_line lines k →
      let atoms_start := Z.of_nat k + 2 in
      let atoms_end := atoms_start + natoms in
      (find_atoms_block lines natoms = Raise TruncatedDocument
       ↔ Py.len lines < atoms_end)
      ∧ (atoms_end ≤ Py.len lines →
         find_atoms_block lines natoms = Ok (atoms_start, atoms_end)
         ∧ atoms_end - atoms_start = natoms).
Proof.
  split.
  - rewrite <- (atoms_header_None lines 0). unfold find_atoms_block.
    destruct (atoms_header lines 0) as [i|]; [| done].
    split; [| done]. by destruct (_ <? _).
  - intros k Hk. simpl. unfold find_atoms_block.
    rewrite (first_atoms_line_header _ _ Hk).
    destruct (Z.ltb_spec (Py.len lines) (Z.of_nat k + 2 + natoms)).
    + split; [done | lia].
    + split; [split; [done | lia] |]. intros _. split; [done | lia].
Qed.

Ltac first_atoms_line_by_cases :=
  split;
  [ eexists; split; reflexivity
  | intros [|[|j]] line Hj Hline; simplify_eq/=; try reflexivity; lia ].

Lemma find_atoms_block_spec_witness :
  find_atoms_block doc_ok 4 = Ok (4, 8)
  ∧ find_atoms_block doc_truncated 2 = Raise TruncatedDocument
  ∧ find_atoms_block [ln "4 atoms"] 4 = Raise MissingSection.
Proof.
  split; [| split].
  - destruct (find_atoms_block_spec doc_ok 4) as [_ H].
    apply (H 2%nat); [first_atoms_line_by_cases | unfold Py.len; simpl; lia].
  - destruct (find_atoms_block_spec doc_truncated 2) as [_ H].
    destruct (H 2%nat) as [[_ Htruncated] _]; [first_atoms_line_by_cases |].
    apply Htruncated. unfold Py.len. simpl. lia.
  - apply (find_atoms_block_spec [ln "4 atoms"] 4).
    intros line [-> | []%elem_of_nil]%elem_of_cons. reflexivity.
Defined.

(** ** Failures of the remapper *)

Lemma short_record_fails lines a b cl raw :
  0 ≤ a → b ≤ Py.len lines →
  raw ∈ block lines a b → skipped raw = false → Py.len (Py.split raw) < 6 →
  fails (remap_to_acag30 lines a b cl).
Proof.
  intros Ha Hb Hraw Hskip Hlen.
  apply elem_of_block in Hraw as (i & Hi & Hraw); [| done..].
  unfold fails, remap_to_acag30.
  destruct (remap_loop _ _ _ _) as [out|e] eqn:Hout; [| by eauto].
  eapply remap_loop_ok in Hout as [_ Hrec];
    [| by apply range_nonneg | done | exact Hraw].
  destruct Hrec as (new & Hnew & _);
    [apply elem_of_range; lia | done |].
  rewrite remap_record_eq in Hnew.
  by destruct (Z.ltb_spec (Py.len (Py.split raw)) 6); [| lia].
Qed.

Lemma remap_raise lines a b cl e :
  0 ≤ a → b ≤ Py.len lines → cl ≠ 0 →
  remap_to_acag30 lines a b cl = Raise e →
  ∃ raw, raw ∈ block lines a b ∧ skipped raw = false
    ∧ ((e = MalformedRecord ∧ Py.len (Py.split raw) < 6)
       ∨ (e = InvalidLiteral ∧ 6 ≤ Py.len (Py.split raw)
          ∧ int_field 0 raw = None)).
Proof.
  intros Ha Hb Hcl Hout. unfold remap_to_acag30 in Hout.
  apply remap_loop_raise in Hout as (i & Hi%elem_of_range & Hcase);
    [| by apply range_nonneg | done].
  destruct Hcase as [[Hnone _] | (raw & Hraw & Hskip & Hrec)].
  { apply lookup_ge_None in Hnone. unfold Py.len in Hb. lia. }
  exists raw. split; [apply elem_of_block; eauto |]. split; [done |].
  rewrite remap_record_eq in Hrec.
  destruct (Z.ltb_spec (Py.len (Py.split raw)) 6).
  { left. split; [congruence | done]. }
  destruct (int_field 0 raw); [| right; split; [congruence | done]].
  by destruct (Z.eqb_spec cl 0).
Qed.

(** ** [main] and the output file *)

Lemma main_raise_unchanged input output w :
  fails (main input output w).1 → files (main input output w).2 = files w.
Proof.
  rewrite main_eq. destruct (files w !! input) as [text|]; [| done].
  cbv zeta. destruct (validate _) as [[[n [a b]] [cl nc]]|]; [| done].
  destruct (remap_to_acag30 _ a b cl); [| done].
  by intros [e ?].
Qed.

(** C3. Whenever one of the four stages fails, [main] raises and the files
    are as they were: the output file is neither created nor written.  The
    output file is written when and only when all four stages have
    succeeded, and then with the joined lines the remapper returned. *)
Theorem main_writes_only_after_all_stages input output w text :
  files w !! input = Some text →
  let lines := Py.splitlines text in
  let outcome := (main input output w).1 in
  let w' := (main input output w).2 in
  (stage_fails lines → fails outcome ∧ files w' = files w)
  ∧ (∀ r, stages_succeed lines r →
       outcome = Ok ()
       ∧ files w' = <[output := Py.join "" (new_lines r)]> (files w))
  ∧ (files w' ≠ files w → ∃ r, stages_succeed lines r).
Proof.
  intros Htext lines outcome w'. subst outcome w'.
  rewrite main_eq, Htext. fold lines. cbv zeta.
  rewrite <- pipeline_fails. setoid_rewrite <- pipeline_ok.
  unfold pipeline, fails.
  destruct (validate lines) as [[[n [a b]] [cl nc]]|]; simpl.
  2:{ split; [eauto |]. split; [by intros r [=] | done]. }
  destruct (remap_to_acag30 lines a b cl) as [nl|]; simpl.
  - split; [by intros [e [=]] |]. split; [by intros r [= <-] |]. eauto.
  - split; [eauto |]. split; [by intros r [=] | done].
Qed.

Lemma main_writes_only_after_all_stages_witness :
  (fails (main "in" "out" (one_file "in" (Py.join "" doc_short))).1
   ∧ files (main "in" "out" (one_file "in" (Py.join "" doc_short))).2
     = files (one_file "in" (Py.join "" doc_short)))
  ∧ ((main "in" "out" (one_file "in" (Py.join "" doc_ok))).1 = Ok ()
     ∧ files (main "in" "out" (one_file "in" (Py.join "" doc_ok))).2
       = <[ "out" := Py.join "" (new_lines run_ok) ]>
           (files (one_file "in" (Py.join "" doc_ok)))).
Proof.
  split.
  - apply (main_writes_only_after_all_stages "in" "out"
             (one_file "in" (Py.join "" doc_short)) (Py.join "" doc_short));
      [reflexivity |].
    right; right; right. exists 2, 4, 6, 2, 1.
    repeat split; try reflexivity. eexists; reflexivity.
  - apply (main_writes_only_after_all_stages "in" "out"
             (one_file "in" (Py.join "" doc_ok)) (Py.join "" doc_ok));
      [reflexivity |].
    repeat split; reflexivity.
Defined.

(** ** The chain count and the chain length *)

(** C4, as stated, fails where the largest molecule id is 0: the block
    size 1 is not divisible by 0, yet inference does not raise
    IndivisibleChainCount; the remainder it takes raises
    [ZeroDivisionError]. *)
Lemma infer_max_zero_counterexample :
  collect_mol_ids doc_mol_zero (Py.range 4 5) [] = Ok [0]
  ∧ Py.max 0 [] = 0
  ∧ ¬ (infer_chain_length_and_count doc_mol_zero 4 5
         = Raise IndivisibleChainCount
       ↔ ¬ (Py.max 0 [] | 5 - 4))
  ∧ infer_chain_length_and_count doc_mol_zero 4 5 = Raise ZeroDivisionError
  ∧ validate doc_mol_zero = Raise ZeroDivisionError.
Proof.
  repeat split; try reflexivity.
  intros [_ H]. discriminate H. intros [z Hz]. simpl in Hz. lia.
Qed.

(** C4, amended. When chain inference has collected at least one molecule
    id and the largest one is not 0, the chain count is that largest id;
    inference fails, and then with IndivisibleChainCount, exactly when the
    block size [atoms_end - atoms_start] is not divisible by it; otherwise
    it returns the block size divided by the chain count as chain length. *)
Theorem infer_chain_shape lines a b m ms :
  collect_mol_ids lines (Py.range a b) [] = Ok (m :: ms) →
  Py.max m ms ≠ 0 →
  let largest := Py.max m ms in
  (largest ∈ m :: ms ∧ ∀ id, id ∈ m :: ms → id ≤ largest)
  ∧ (infer_chain_length_and_count lines a b = Raise IndivisibleChainCount
     ↔ ¬ (largest | b - a))
  ∧ (fails (infer_chain_length_and_count lines a b) ↔ ¬ (largest | b - a))
  ∧ ((largest | b - a) →
     infer_chain_length_and_count lines a b = Ok ((b - a) / largest, largest))
  ∧ ∀ cl nc, infer_chain_length_and_count lines a b = Ok (cl, nc) →
      nc = largest ∧ cl = (b - a) / nc.
Proof.
  intros Hids Hnz largest. split; [apply max_foldl |].
  assert (Heq : infer_chain_length_and_count lines a b
                = chain_shape (b - a) (m :: ms))
    by (unfold infer_chain_length_and_count; by rewrite Hids).
  unfold fails. rewrite Heq, chain_shape_eq. fold largest.
  destruct (Z.eqb_spec largest 0) as [| _]; [done |].
  rewrite <- (Z.mod_divide (b - a) largest Hnz).
  destruct (Z.eqb_spec ((b - a) mod largest) 0) as [Hmod | Hmod].
  - split; [split; [done | by intros []] |].
    split; [split; [by intros [e ?] | by intros []] |].
    split; [done |]. by intros cl nc [= <- <-].
  - split; [done |]. split; [split; [done | eauto] |].
    split; [by intros ? | by intros cl nc ?].
Qed.

Lemma infer_chain_shape_witness :
  (2 ∈ [1; 1; 2] ∧ ∀ id, id ∈ [1; 1; 2] → id ≤ 2)
  ∧ (infer_chain_length_and_count doc_ok 4 8 = Raise IndivisibleChainCount
     ↔ ¬ (2 | 8 - 4))
  ∧ (fails (infer_chain_length_and_count doc_ok 4 8) ↔ ¬ (2 | 8 - 4))
  ∧ ((2 | 8 - 4) →
     infer_chain_length_and_count doc_ok 4 8 = Ok ((8 - 4) / 2, 2))
  ∧ ∀ cl nc, infer_chain_length_and_count doc_ok 4 8 = Ok (cl, nc) →
      nc = 2 ∧ cl = (8 - 4) / nc.
Proof.
  apply (infer_chain_shape doc_ok 4 8 1 [1; 2]); [reflexivity |].
  simpl. lia.
Defined.

(** ** The lines chain inference reads *)

(** C5, as stated, fails on a block line with two fields: it is neither
    blank nor comment-prefixed and its second field is an integer, yet
    the loop skips it, and inference raises EmptyBlock. *)
Lemma infer_two_fields_counterexample :
  doc_two_fields !! Z.to_nat 4 = Some (ln "7 7")
  ∧ blank_or_comment (Py.strip (ln "7 7")) = false
  ∧ int_field 1 (ln "7 7") = Some 7
  ∧ collect_mol_ids doc_two_fields (Py.range 4 5) [] = Ok []
  ∧ infer_chain_length_and_count doc_two_fields 4 5 = Raise EmptyBlock
  ∧ validate doc_two_fields = Raise EmptyBlock.
Proof. repeat split; reflexivity. Qed.

(** C5, amended. The block lines chain inference skips are the blank
    lines, the comment-prefixed lines and the lines with fewer than 3
    fields.  Every other line of the block contributes its second field,
    parsed as an integer, in block order, and inference raises EmptyBlock
    exactly when there is no such line. *)
Theorem infer_reads_records lines a b :
  0 ≤ a → b ≤ Py.len lines →
  let records :=
    List.filter
      (λ raw, negb (blank_or_comment (Py.strip raw))
              && (3 <=? Py.len (Py.split raw)))
      (block lines a b) in
  (∀ mol_ids,
     collect_mol_ids lines (Py.range a b) [] = Ok mol_ids
     ↔ mapM (λ raw, Py.split raw !! 1%nat ≫= Py.int) records = Some mol_ids)
  ∧ (infer_chain_length_and_count lines a b = Raise EmptyBlock
     ↔ records = []).
Proof.
  intros Ha Hb records.
  assert (Hrec : records = List.filter mol_record (block lines a b))
    by reflexivity.
  clearbody records. subst records.
  change (λ raw, Py.split raw !! 1%nat ≫= Py.int) with (int_field 1).
  split.
  - intros mol_ids.
    rewrite (collect_mol_ids_spec _ _ _ _ (range_block lines a b Ha Hb)).
    destruct (mapM _ _) as [ids|]; simpl; [| done].
    split; congruence.
  - rewrite infer_spec by done.
    destruct (List.filter mol_record (block lines a b)) as [|raw raws];
      [done |].
    destruct (mapM (int_field 1) (raw :: raws)) as [ids|] eqn:Hids;
      [| done].
    apply length_mapM in Hids. destruct ids as [|m ms]; [done |].
    rewrite chain_shape_eq. split; [| done].
    destruct (_ =? 0); [done |]. by destruct (_ =? 0).
Qed.

Lemma infer_reads_records_witness :
  (∀ mol_ids,
     collect_mol_ids doc_ok (Py.range 4 8) [] = Ok mol_ids
     ↔ mapM (λ raw, Py.split raw !! 1%nat ≫= Py.int)
         [ln "1 1 1  0.5 0.0 0.0"; ln "2 1 1 0.0 0.0 0.0";
          "3  2 1 0.0 0.0 0.0 9"] = Some mol_ids)
  ∧ (infer_chain_length_and_count doc_ok 4 8 = Raise EmptyBlock
     ↔ [ln "1 1 1  0.5 0.0 0.0"; ln "2 1 1 0.0 0.0 0.0";
        "3  2 1 0.0 0.0 0.0 9"] = []).
Proof.
  apply (infer_reads_records doc_ok 4 8); [lia | unfold Py.len; simpl; lia].
Defined.

(** ** Malformed records *)

(** C6, as stated, fails in both directions.  In [doc_bad_id_then_short]
    a record of four fields follows a record whose atom id is no integer:
    the remapper raises the error of [int] and not MalformedRecord.  In
    [doc_bad_id] every record has six fields and the remapper fails all the
    same. *)
Lemma remap_malformed_counterexample :
  (validate doc_bad_id_then_short = Ok (2, (4, 6), (2, 1))
   ∧ ln "2 1 1 0.0" ∈ block doc_bad_id_then_short 4 6
   ∧ blank_or_comment (Py.strip (ln "2 1 1 0.0")) = false
   ∧ Py.len (Py.split (ln "2 1 1 0.0")) = 4
   ∧ remap_to_acag30 doc_bad_id_then_short 4 6 2 = Raise InvalidLiteral)
  ∧ (validate doc_bad_id = Ok (1, (4, 5), (1, 1))
     ∧ block doc_bad_id 4 5 = [ln "x 1 1 0.0 0.0 0.0"]
     ∧ Py.len (Py.split (ln "x 1 1 0.0 0.0 0.0")) = 6
     ∧ remap_to_acag30 doc_bad_id 4 5 1 = Raise InvalidLiteral).
Proof.
  repeat split; try reflexivity.
  apply list_elem_of_lookup. by exists 1%nat.
Qed.

(** C6, amended.  For a block inside the document and a chain length that
    is not 0 (as chain inference returns it): a block line that is neither
    blank nor comment-prefixed and has fewer than 6 fields makes the
    remapper fail; and when every such line with at least 6 fields has an
    integer in field 0, the remapper fails if and only if some such line
    has fewer than 6 fields, and it then fails with MalformedRecord.  In a
    run whose first three stages returned that block and chain length, a
    line with fewer than 6 fields makes [main] raise with no file written. *)
Theorem remap_malformed_iff lines a b cl :
  0 ≤ a → b ≤ Py.len lines → cl ≠ 0 →
  let short_record :=
    ∃ raw, raw ∈ block lines a b
           ∧ blank_or_comment (Py.strip raw) = false
           ∧ Py.len (Py.split raw) < 6 in
  (short_record → fails (remap_to_acag30 lines a b cl))
  ∧ ((∀ raw, raw ∈ block lines a b →
        blank_or_comment (Py.strip raw) = false →
        6 ≤ Py.len (Py.split raw) → is_Some (int_field 0 raw)) →
     (remap_to_acag30 lines a b cl = Raise MalformedRecord ↔ short_record)
     ∧ (fails (remap_to_acag30 lines a b cl) ↔ short_record))
  ∧ (∀ input output w text n nc,
       files w !! input = Some text → Py.splitlines text = lines →
       validate lines = Ok (n, (a, b), (cl, nc)) → short_record →
       fails (main input output w).1
       ∧ files (main input output w).2 = files w).
Proof.
  intros Ha Hb Hcl short_record.
  assert (Hfails : short_record → fails (remap_to_acag30 lines a b cl)).
  { intros (raw & Hraw & Hskip & Hlen). by eapply short_record_fails. }
  split; [done |]. split.
  - intros Hint.
    assert (Hraise : ∀ e, remap_to_acag30 lines a b cl = Raise e →
                          e = MalformedRecord ∧ short_record).
    { intros e (raw & Hraw & Hskip & Hcase)%remap_raise; [| done..].
      destruct Hcase as [[-> Hlen] | (_ & Hlen & Hnone)].
      - split; [done |]. by exists raw.
      - destruct (Hint raw Hraw Hskip Hlen) as [z Hz]. congruence. }
    split; split.
    + by intros [_ ?]%Hraise.
    + intros [e He]%Hfails. by destruct (Hraise e He) as [-> _].
    + intros [e He]. by destruct (Hraise e He).
    + done.
  - intros input output w text n nc Htext Hlines Hvalidate Hshort.
    assert (Hmain : fails (main input output w).1).
    { rewrite main_eq, Htext, Hlines. cbv zeta. rewrite Hvalidate.
      destruct (Hfails Hshort) as [e ->]. by exists e. }
    split; [done |]. by apply main_raise_unchanged.
Qed.

Lemma remap_malformed_iff_witness :
  fails (remap_to_acag30 doc_short 4 6 2)
  ∧ remap_to_acag30 doc_short 4 6 2 = Raise MalformedRecord
  ∧ (fails (main "in" "out" (one_file "in" (Py.join "" doc_short))).1
     ∧ files (main "in" "out" (one_file "in" (Py.join "" doc_short))).2
       = files (one_file "in" (Py.join "" doc_short))).
Proof.
  assert (Hshort : ∃ raw, raw ∈ block doc_short 4 6
            ∧ blank_or_comment (Py.strip raw) = false
            ∧ Py.len (Py.split raw) < 6).
  { exists (ln "2 1 1 0.0"). split; [| split; [reflexivity | reflexivity]].
    apply list_elem_of_lookup. exists 1%nat. reflexivity. }
  destruct (remap_malformed_iff doc_short 4 6 2) as (H1 & H2 & H3);
    [lia | unfold Py.len; simpl; lia | lia |].
  split; [by apply H1 |]. split.
  - apply H2; [| done].
    intros raw Hraw _ _. change (block doc_short 4 6)
      with [ln "1 1 1 0.0 0.0 0.0"; ln "2 1 1 0.0"] in Hraw.
    rewrite !elem_of_cons in Hraw.
    destruct Hraw as [-> | [-> | []%elem_of_nil]]; by eexists.
  - apply (H3 "in" "out" _ (Py.join "" doc_short) 2 1);
      [reflexivity | reflexivity | reflexivity | done].
Defined.

(** * Further properties of the script *)

(** ** The header scan *)

Lemma parse_num_atoms_cons line rest :
  parse_num_atoms (line :: rest) =
    match Py.split line with
    | [n; word] =>
        if String.eqb word "atoms" then Py.int_of n else parse_num_atoms rest
    | _ => parse_num_atoms rest
    end.
Proof. reflexivity. Qed.

Lemma parse_num_atoms_skip line rest :
  (∀ n, Py.split line ≠ [n; "atoms"]) →
  parse_num_atoms (line :: rest) = parse_num_atoms rest.
Proof.
  intros Hline. rewrite parse_num_atoms_cons.
  destruct (Py.split line) as [|n [|word [|? ?]]]; try done.
  destruct (String.eqb_spec word "atoms") as [-> | _]; [| done].
  by destruct (Hline n).
Qed.

(** X1. The header scan returns [int] of the first token of the first
    line that splits into exactly two tokens of which the second is
    "atoms": lines before it are passed over, lines after it are never
    looked at, and when that token is no integer the error of [int] is
    raised rather than the scan going on.  It raises MissingHeaderFact
    exactly when no line has that shape. *)
Theorem parse_num_atoms_first_match lines :
  (parse_num_atoms lines = Raise MissingHeaderFact
   ↔ ∀ line n, line ∈ lines → Py.split line ≠ [n; "atoms"])
  ∧ ∀ before line after n,
      lines = (before ++ line :: after)%list →
      (∀ l m, l ∈ before → Py.split l ≠ [m; "atoms"]) →
      Py.split line = [n; "atoms"] →
      parse_num_atoms lines = Py.int_of n.
Proof.
  split.
  - induction lines as [|line rest IH].
    { split; [| done]. by intros _ line n ?%elem_of_nil. }
    rewrite parse_num_atoms_cons.
    destruct (Py.split line) as [|n [|word [|? ?]]] eqn:Hsplit;
      try (rewrite IH; split;
           [ intros H l' m' [-> | ?]%elem_of_cons;
               [rewrite Hsplit; congruence | eauto]
           | intros H l' m' ?; apply H, elem_of_cons; by right ]).
    destruct (String.eqb_spec word "atoms") as [-> | Hword].
    + split.
      * unfold Py.int_of. by destruct (Py.int n).
      * intros H. destruct (H line n); [apply elem_of_cons; by left | done].
    + rewrite IH. split.
      * intros H l m [-> | ?]%elem_of_cons; [| eauto].
        rewrite Hsplit. congruence.
      * intros H l m ?. apply H, elem_of_cons. by right.
  - intros before line after n -> Hbefore Hline.
    induction before as [|l before IH]; simpl app.
    + rewrite parse_num_atoms_cons, Hline. by rewrite String.eqb_refl.
    + rewrite parse_num_atoms_skip.
      * apply IH. intros l' m ?. apply Hbefore, elem_of_cons. by right.
      * intros m. apply Hbefore, elem_of_cons. by left.
Qed.

Lemma parse_num_atoms_first_match_witness :
  parse_num_atoms [ln "# 7 atoms"; ln "many atoms"; ln "4 atoms"]
  = Py.int_of "many".
Proof.
  apply (parse_num_atoms_first_match
           [ln "# 7 atoms"; ln "many atoms"; ln "4 atoms"]) with
    (before := [ln "# 7 atoms"]) (line := ln "many atoms")
    (after := [ln "4 atoms"]); [reflexivity | | reflexivity].
  intros l m [-> | []%elem_of_nil]%elem_of_cons. discriminate.
Defined.

Lemma parse_num_atoms_raise lines e :
  parse_num_atoms lines = Raise e → e = MissingHeaderFact ∨ e = InvalidLiteral.
Proof.
  induction lines as [|line rest IH]; [intros [= <-]; by left |].
  rewrite parse_num_atoms_cons.
  destruct (Py.split line) as [|n [|word [|? ?]]]; try done.
  destruct (String.eqb word "atoms"); [| done].
  unfold Py.int_of. destruct (Py.int n); [done |]. intros [= <-]. by right.
Qed.

(** ** What validation guarantees *)

Lemma infer_empty_range lines a b :
  b ≤ a → infer_chain_length_and_count lines a b = Raise EmptyBlock.
Proof.
  intros Hab. unfold infer_chain_length_and_count, Py.range.
  by replace (Z.to_nat (b - a)) with 0%nat by lia.
Qed.

Lemma find_atoms_block_raise lines n e :
  find_atoms_block lines n = Raise e →
  e = MissingSection ∨ e = TruncatedDocument.
Proof.
  unfold find_atoms_block. destruct (atoms_header lines 0); [| naive_solver].
  destruct (_ <? _); naive_solver.
Qed.

(** X2. A declared atom count of zero or less never passes validation:
    the block locator does not reject it by itself (it only compares the
    end of the range with the length of the document), but the range it
    returns is empty, so chain inference raises EmptyBlock. *)
Theorem nonpositive_atom_count_rejected lines n :
  parse_num_atoms lines = Ok n → n ≤ 0 →
  (∀ a b, find_atoms_block lines n = Ok (a, b) →
     b ≤ a ∧ infer_chain_length_and_count lines a b = Raise EmptyBlock)
  ∧ ∃ e, validate lines = Raise e
         ∧ e ∈ [MissingSection; TruncatedDocument; EmptyBlock].
Proof.
  intros Hparse Hn.
  assert (Hfind : ∀ a b, find_atoms_block lines n = Ok (a, b) →
            b ≤ a ∧ infer_chain_length_and_count lines a b = Raise EmptyBlock).
  { intros a b (_ & -> & _)%find_atoms_block_ok.
    split; [lia |]. apply infer_empty_range. lia. }
  split; [done |]. unfold validate. rewrite Hparse. simpl.
  destruct (find_atoms_block lines n) as [[a b]|e] eqn:Hab; simpl.
  - destruct (Hfind a b eq_refl) as [_ ->]. simpl.
    exists EmptyBlock. split; [done |]. rewrite !elem_of_cons. auto.
  - exists e. split; [done |].
    apply find_atoms_block_raise in Hab as [-> | ->];
      rewrite !elem_of_cons; auto.
Qed.

Lemma nonpositive_atom_count_rejected_witness :
  (∀ a b, find_atoms_block [ln "-1 atoms"; ln "Atoms"; ln ""; ln "x"] (-1)
          = Ok (a, b) →
     b ≤ a
     ∧ infer_chain_length_and_count
         [ln "-1 atoms"; ln "Atoms"; ln ""; ln "x"] a b = Raise EmptyBlock)
  ∧ ∃ e, validate [ln "-1 atoms"; ln "Atoms"; ln ""; ln "x"] = Raise e
         ∧ e ∈ [MissingSection; TruncatedDocument; EmptyBlock].
Proof.
  apply (nonpositive_atom_count_rejected
           [ln "-1 atoms"; ln "Atoms"; ln ""; ln "x"] (-1));
    [reflexivity | lia].
Defined.

(** X3. When the three validation stages succeed, the block lies after
    the section header and inside the document, it has exactly the
    declared number of lines, which is at least 1, and the chain length
    times the chain count is that number; neither of the two is 0. *)
Theorem validated_shape lines n a b cl nc :
  validate lines = Ok (n, (a, b), (cl, nc)) →
  2 ≤ a ∧ a < b ∧ b ≤ Py.len lines ∧ b - a = n ∧ 1 ≤ n
  ∧ cl * nc = n ∧ cl ≠ 0 ∧ nc ≠ 0.
Proof.
  intros (_ & Hfind & Hinf & _)%validate_ok.
  destruct (find_atoms_block_ok _ _ _ _ Hfind) as (? & ? & ?).
  destruct (infer_ok _ _ _ _ _ Hinf)
    as (m & ms & _ & _ & Hnc & Hmod & Hcl & Hab & Hcl0).
  pose proof (Z.div_mod (b - a) nc Hnc) as Hdm. rewrite Hmod in Hdm.
  repeat split; try done; try lia.
Qed.

Lemma validated_shape_witness :
  2 ≤ 4 ∧ 4 < 8 ∧ 8 ≤ Py.len doc_ok ∧ 8 - 4 = 4 ∧ 1 ≤ 4
  ∧ 2 * 2 = 4 ∧ 2 ≠ 0 ∧ 2 ≠ 0.
Proof. apply (validated_shape doc_ok 4 4 8 2 2). reflexivity. Defined.

(** ** The errors a run can raise *)

Lemma infer_raise lines a b e :
  0 ≤ a → b ≤ Py.len lines →
  infer_chain_length_and_count lines a b = Raise e →
  e ∈ [InvalidLiteral; EmptyBlock; ZeroDivisionError; IndivisibleChainCount].
Proof.
  intros Ha Hb. rewrite infer_spec by done. rewrite !elem_of_cons.
  destruct (mapM _ _) as [[|m ms]|]; [| | naive_solver].
  - naive_solver.
  - rewrite chain_shape_eq. destruct (_ =? 0); [naive_solver |].
    destruct (_ =? 0); naive_solver.
Qed.

(** X4. Whatever the document, the four stages never raise [IndexError]:
    every list access of the script is inside its list.  A failing run
    raises one of eight errors, each from the stages that can raise it:
    the header scan MissingHeaderFact or the error of [int]; the block
    locator MissingSection or TruncatedDocument; chain inference the error
    of [int], EmptyBlock, [ZeroDivisionError] or IndivisibleChainCount; the
    remapper MalformedRecord or the error of [int]. *)
Theorem pipeline_errors lines e :
  pipeline lines = Raise e →
  e ≠ IndexError
  ∧ ((parse_num_atoms lines = Raise e
      ∧ e ∈ [MissingHeaderFact; InvalidLiteral])
     ∨ (∃ n, parse_num_atoms lines = Ok n
          ∧ find_atoms_block lines n = Raise e
          ∧ e ∈ [MissingSection; TruncatedDocument])
     ∨ (∃ n a b, parse_num_atoms lines = Ok n
          ∧ find_atoms_block lines n = Ok (a, b)
          ∧ infer_chain_length_and_count lines a b = Raise e
          ∧ e ∈ [InvalidLiteral; EmptyBlock; ZeroDivisionError;
                 IndivisibleChainCount])
     ∨ (∃ n a b cl nc, parse_num_atoms lines = Ok n
          ∧ find_atoms_block lines n = Ok (a, b)
          ∧ infer_chain_length_and_count lines a b = Ok (cl, nc)
          ∧ remap_to_acag30 lines a b cl = Raise e
          ∧ e ∈ [MalformedRecord; InvalidLiteral])).
Proof.
  intros Hrun.
  assert (Hstage :
    (parse_num_atoms lines = Raise e
      ∧ e ∈ [MissingHeaderFact; InvalidLiteral])
     ∨ (∃ n, parse_num_atoms lines = Ok n
          ∧ find_atoms_block lines n = Raise e
          ∧ e ∈ [MissingSection; TruncatedDocument])
     ∨ (∃ n a b, parse_num_atoms lines = Ok n
          ∧ find_atoms_block lines n = Ok (a, b)
          ∧ infer_chain_length_and_count lines a b = Raise e
          ∧ e ∈ [InvalidLiteral; EmptyBlock; ZeroDivisionError;
                 IndivisibleChainCount])
     ∨ (∃ n a b cl nc, parse_num_atoms lines = Ok n
          ∧ find_atoms_block lines n = Ok (a, b)
          ∧ infer_chain_length_and_count lines a b = Ok (cl, nc)
          ∧ remap_to_acag30 lines a b cl = Raise e
          ∧ e ∈ [MalformedRecord; InvalidLiteral])).
  { unfold pipeline, validate in Hrun.
    destruct (parse_num_atoms lines) as [n|e1] eqn:Hparse; simpl in Hrun.
    2:{ left. simplify_eq. split; [done |].
        apply parse_num_atoms_raise in Hparse as [-> | ->];
          rewrite !elem_of_cons; auto. }
    destruct (find_atoms_block lines n) as [[a b]|e2] eqn:Hfind;
      simpl in Hrun.
    2:{ right; left. simplify_eq. exists n. split; [done |]. split; [done |].
        apply find_atoms_block_raise in Hfind as [-> | ->];
          rewrite !elem_of_cons; auto. }
    destruct (find_atoms_block_ok _ _ _ _ Hfind) as (Ha & _ & Hb).
    destruct (infer_chain_length_and_count lines a b) as [[cl nc]|e3]
      eqn:Hinf; simpl in Hrun.
    2:{ right; right; left. simplify_eq. exists n, a, b.
        repeat split; try done. apply infer_raise in Hinf; [done | lia | done]. }
    destruct (remap_to_acag30 lines a b cl) as [nl|e4] eqn:Hremap;
      simpl in Hrun; [done |].
    right; right; right. simplify_eq. exists n, a, b, cl, nc.
    repeat split; try done.
    destruct (infer_ok _ _ _ _ _ Hinf) as (? & ? & ? & ? & ? & ? & ? & ? & ?).
    apply remap_raise in Hremap as (raw & _ & _ & [[-> _] | [-> _]]);
      [| | lia | done | done]; rewrite !elem_of_cons; auto. }
  split; [| done].
  intros ->.
  destruct Hstage as [[_ H] | [(? & _ & _ & H) | [(? & ? & ? & _ & _ & _ & H)
    | (? & ? & ? & ? & ? & _ & _ & _ & _ & H)]]];
    rewrite !elem_of_cons, elem_of_nil in H;
    repeat (destruct H as [H | H]; [discriminate H |]); done.
Qed.

Lemma pipeline_errors_witness :
  MalformedRecord ≠ IndexError
  ∧ ((parse_num_atoms doc_short = Raise MalformedRecord
      ∧ MalformedRecord ∈ [MissingHeaderFact; InvalidLiteral])
     ∨ (∃ n, parse_num_atoms doc_short = Ok n
          ∧ find_atoms_block doc_short n = Raise MalformedRecord
          ∧ MalformedRecord ∈ [MissingSection; TruncatedDocument])
     ∨ (∃ n a b, parse_num_atoms doc_short = Ok n
          ∧ find_atoms_block doc_short n = Ok (a, b)
          ∧ infer_chain_length_and_count doc_short a b = Raise MalformedRecord
          ∧ MalformedRecord ∈ [InvalidLiteral; EmptyBlock; ZeroDivisionError;
                 IndivisibleChainCount])
     ∨ (∃ n a b cl nc, parse_num_atoms doc_short = Ok n
          ∧ find_atoms_block doc_short n = Ok (a, b)
          ∧ infer_chain_length_and_count doc_short a b = Ok (cl, nc)
          ∧ remap_to_acag30 doc_short a b cl = Raise MalformedRecord
          ∧ MalformedRecord ∈ [MalformedRecord; InvalidLiteral])).
Proof. apply (pipeline_errors doc_short MalformedRecord). reflexivity. Defined.

(** ** What the new line of a record depends on *)

(** X5. The line the remapper writes for a record depends on its fields
    only, and not on field 2 among them: two lines with the same number
    of fields and the same fields but for field 2, however they are
    spaced, give the same new line or raise the same error. *)
Theorem remap_record_ignores_type_and_spacing raw raw' cl :
  length (Py.split raw) = length (Py.split raw') →
  (∀ j : nat, j ≠ 2%nat → Py.split raw !! j = Py.split raw' !! j) →
  remap_record raw cl = remap_record raw' cl.
Proof.
  intros Hlen Hfields. rewrite !remap_record_eq.
  unfold Py.len, int_field, retyped. rewrite Hlen, (Hfields 0%nat) by done.
  destruct (_ <? 6); [done |].
  destruct (Py.split raw' !! 0%nat ≫= Py.int) as [atom_id|]; [| done].
  destruct (cl =? 0); [done |]. do 3 f_equal.
  apply list_eq. intros j. destruct (decide (j = 2%nat)) as [-> | Hj].
  - destruct (decide (2 < length (Py.split raw'))%nat).
    + rewrite !list_lookup_insert_eq by lia. done.
    + rewrite !list_insert_ge by lia.
      rewrite !lookup_ge_None_2 by lia. done.
  - rewrite !list_lookup_insert_ne by done. by apply Hfields.
Qed.

Lemma remap_record_ignores_type_and_spacing_witness :
  remap_record (ln "2 1 1 0.0 0.0 0.0") 2
  = remap_record "  2	1   7 0.0 0.0   0.0" 2.
Proof.
  apply (remap_record_ignores_type_and_spacing
           (ln "2 1 1 0.0 0.0 0.0") "  2	1   7 0.0 0.0   0.0" 2);
    [vm_compute; reflexivity |].
  intros j Hj.
  do 6 (destruct j as [|j]; [first [congruence | vm_compute; reflexivity] |]).
  vm_compute. reflexivity.
Defined.

Lemma pattern_type_period a k cl :
  pattern_type (a + k * cl) cl = pattern_type a cl.
Proof.
  unfold pattern_type. replace (a + k * cl - 1) with (a - 1 + k * cl) by lia.
  by rewrite Z_mod_plus_full.
Qed.

(** X6. In a run whose four stages succeed, two records whose atom ids
    differ by a multiple of the chain length (atoms at the same place in
    two chains) get the same type. *)
Theorem same_offset_same_type lines r (i j : nat) raw_i raw_j a_i a_j k :
  pipeline lines = Ok r →
  atoms_start r ≤ Z.of_nat i < atoms_end r →
  atoms_start r ≤ Z.of_nat j < atoms_end r →
  lines !! i = Some raw_i → lines !! j = Some raw_j →
  blank_or_comment (Py.strip raw_i) = false →
  blank_or_comment (Py.strip raw_j) = false →
  int_field 0 raw_i = Some a_i → int_field 0 raw_j = Some a_j →
  a_j = a_i + k * chain_len r →
  ∃ new_i new_j new_type,
    new_lines r !! i = Some new_i ∧ new_lines r !! j = Some new_j
    ∧ Py.split new_i !! 2%nat = Some new_type
    ∧ Py.split new_j !! 2%nat = Some new_type.
Proof.
  intros Hr Hi Hj Hraw_i Hraw_j Hskip_i Hskip_j Ha_i Ha_j ->.
  destruct (run_record lines r i raw_i) as (a & Hlen_i & Ha & Hnew_i);
    try done.
  destruct (run_record lines r j raw_j) as (a' & Hlen_j & Ha' & Hnew_j);
    try done.
  simplify_eq. rewrite pattern_type_period in Hnew_j.
  do 3 eexists. split; [exact Hnew_i |]. split; [exact Hnew_j |].
  rewrite !split_retyped. unfold Py.len in *.
  split; apply list_lookup_insert_eq; lia.
Qed.

Lemma same_offset_same_type_witness :
  ∃ new_i new_j new_type,
    new_lines run_ok !! 4%nat = Some new_i
    ∧ new_lines run_ok !! 7%nat = Some new_j
    ∧ Py.split new_i !! 2%nat = Some new_type
    ∧ Py.split new_j !! 2%nat = Some new_type.
Proof.
  apply (same_offset_same_type doc_ok run_ok 4 7
           (ln "1 1 1  0.5 0.0 0.0") "3  2 1 0.0 0.0 0.0 9" 1 3 1);
    try reflexivity; simpl; lia.
Defined.

(** X7. In a run whose four stages succeed, the type written into a
    record is always "1", "2" or "3": the pattern holds no 4. *)
Theorem new_type_is_1_2_or_3 lines r (i : nat) raw :
  pipeline lines = Ok r →
  atoms_start r ≤ Z.of_nat i < atoms_end r →
  lines !! i = Some raw →
  blank_or_comment (Py.strip raw) = false →
  ∃ new_line new_type,
    new_lines r !! i = Some new_line
    ∧ Py.split new_line !! 2%nat = Some new_type
    ∧ new_type ∈ ["1"; "2"; "3"].
Proof.
  intros Hr Hi Hraw Hskip.
  destruct (run_record lines r i raw) as (a & Hlen & _ & Hnew); try done.
  do 2 eexists. split; [exact Hnew |]. rewrite split_retyped.
  split; [apply list_lookup_insert_eq; unfold Py.len in *; lia |].
  rewrite !elem_of_cons.
  destruct (pattern_type_cases a (chain_len r)) as [-> | [-> | ->]]; auto.
Qed.

Lemma new_type_is_1_2_or_3_witness :
  ∃ new_line new_type,
    new_lines run_ok !! 5%nat = Some new_line
    ∧ Py.split new_line !! 2%nat = Some new_type
    ∧ new_type ∈ ["1"; "2"; "3"].
Proof.
  apply (new_type_is_1_2_or_3 doc_ok run_ok 5 (ln "2 1 1 0.0 0.0 0.0"));
    try reflexivity; simpl; lia.
Defined.

(** ** Running the stages on the output *)

(** What a successful run leaves at each line of the document. *)
Lemma run_line lines r (k : nat) raw :
  pipeline lines = Ok r → lines !! k = Some raw →
  new_lines r !! k = Some raw
  ∨ (atoms_start r ≤ Z.of_nat k < atoms_end r ∧ skipped raw = false
     ∧ ∃ atom_id, 6 ≤ Py.len (Py.split raw)
         ∧ int_field 0 raw = Some atom_id
         ∧ new_lines r !! k
           = Some (retyped raw (pattern_type atom_id (chain_len r)))).
Proof.
  intros Hr Hraw.
  destruct (decide (atoms_start r ≤ Z.of_nat k < atoms_end r)) as [Hk | Hk].
  - destruct (skipped raw) eqn:Hskip.
    + left. rewrite <- Hraw. apply run_other; eauto.
    + right. split; [done |]. split; [done |]. by apply (run_record lines).
  - left. rewrite <- Hraw. apply run_other; auto.
Qed.

Lemma parse_num_atoms_ext lines lines' :
  Forall2 (λ l l', Py.split l = Py.split l'
                   ∨ (2 < length (Py.split l) ∧ 2 < length (Py.split l'))%nat)
          lines lines' →
  parse_num_atoms lines = parse_num_atoms lines'.
Proof.
  induction 1 as [|l l' lines lines' Hl _ IH]; [done |].
  rewrite !parse_num_atoms_cons, IH. destruct Hl as [-> | [Hlen Hlen']]; [done |].
  destruct (Py.split l) as [|? [|? [|? ?]]]; simpl in Hlen; try lia.
  destruct (Py.split l') as [|? [|? [|? ?]]]; simpl in Hlen'; try lia.
  done.
Qed.

Lemma run_parse_output lines r :
  pipeline lines = Ok r →
  parse_num_atoms (new_lines r) = parse_num_atoms lines.
Proof.
  intros Hr. symmetry. apply parse_num_atoms_ext.
  apply Forall2_same_length_lookup_2; [by rewrite (run_length lines r Hr) |].
  intros k raw raw' Hraw Hraw'.
  destruct (run_line lines r k raw Hr Hraw)
    as [Hsame | (_ & _ & a & Hlen & _ & Hnew)].
  - left. congruence.
  - right. rewrite Hnew in Hraw'. simplify_eq.
    rewrite split_retyped, length_insert. unfold Py.len in Hlen. lia.
Qed.

Lemma find_atoms_block_first lines n a b :
  find_atoms_block lines n = Ok (a, b) →
  ∃ k : nat, first_atoms_line lines k ∧ a = Z.of_nat k + 2 ∧ b = a + n
             ∧ b ≤ Py.len lines.
Proof.
  unfold find_atoms_block.
  destruct (atoms_header lines 0) as [i|] eqn:Hi; [| done].
  apply atoms_header_Some in Hi as (k & -> & Hk).
  destruct (Z.ltb_spec (Py.len lines) (0 + Z.of_nat k + 2 + n)); [done |].
  intros [= <- <-]. exists k. split; [done |]. lia.
Qed.

Lemma run_find_output lines r :
  pipeline lines = Ok r →
  find_atoms_block (new_lines r) (natoms r) = Ok (atoms_start r, atoms_end r).
Proof.
  intros Hr. pose proof (run_length _ _ Hr) as Hlen.
  destruct (run_facts _ _ Hr) as ((_ & Hfind & _) & _).
  apply find_atoms_block_first in Hfind as (k & [Hhead Hbefore] & Ha & Hb & Hend).
  assert (Hsame : ∀ j : nat, (j ≤ k)%nat → new_lines r !! j = lines !! j).
  { intros j Hj. apply run_other; [done |]. left. lia. }
  assert (Hk : first_atoms_line (new_lines r) k).
  { split.
    - destruct Hhead as (line & Hline & Hatoms). exists line.
      by rewrite Hsame.
    - intros j line Hj Hline. rewrite Hsame in Hline by lia. eauto. }
  unfold find_atoms_block. rewrite (first_atoms_line_header _ _ Hk).
  unfold Py.len in *. rewrite Hlen.
  destruct (Z.ltb_spec (Z.of_nat (length lines))
              (Z.of_nat k + 2 + natoms r)); [lia |].
  by rewrite <- Ha, <- Hb.
Qed.

Lemma run_infer_output lines r :
  pipeline lines = Ok r →
  infer_chain_length_and_count (new_lines r) (atoms_start r) (atoms_end r)
  = infer_chain_length_and_count lines (atoms_start r) (atoms_end r).
Proof.
  intros Hr. pose proof (run_length _ _ Hr) as Hlen.
  destruct (run_facts _ _ Hr) as (_ & Ha & _ & Hb & _).
  rewrite !infer_spec by (unfold Py.len in *; lia).
  rewrite (records_ext (block lines (atoms_start r) (atoms_end r))
             (block (new_lines r) (atoms_start r) (atoms_end r))); [done |].
  apply Forall2_same_length_lookup_2.
  { unfold block. rewrite !length_take, !length_drop. lia. }
  intros j raw raw' [Hraw _]%block_lookup [Hraw' _]%block_lookup; [| lia..].
  destruct (run_line lines r _ raw Hr Hraw)
    as [Hsame | (_ & Hskip & a & Hfields & _ & Hnew)].
  - by simplify_eq.
  - rewrite Hnew in Hraw'. simplify_eq.
    destruct (retyped_record raw a (chain_len r) Hskip Hfields)
      as (_ & ? & ? & ?).
    split; congruence.
Qed.

(** A retyped record is left as it is by the body of the loop. *)
Lemma remap_record_retyped raw a cl :
  6 ≤ Py.len (Py.split raw) → int_field 0 raw = Some a → cl ≠ 0 →
  remap_record (retyped raw (pattern_type a cl)) cl
  = Ok (retyped raw (pattern_type a cl)).
Proof.
  intros Hlen Ha Hcl. rewrite remap_record_eq.
  unfold Py.len, int_field in *. rewrite split_retyped, length_insert.
  destruct (Z.ltb_spec (Z.of_nat (length (Py.split raw))) 6); [lia |].
  rewrite list_lookup_insert_ne, Ha by done.
  destruct (Z.eqb_spec cl 0); [done |].
  unfold retyped at 1. rewrite split_retyped. by rewrite list_insert_insert_eq.
Qed.

Lemma run_remap_output lines r :
  pipeline lines = Ok r →
  remap_to_acag30 (new_lines r) (atoms_start r) (atoms_end r) (chain_len r)
  = Ok (new_lines r).
Proof.
  intros Hr. pose proof (run_length _ _ Hr) as Hlen.
  destruct (run_facts _ _ Hr) as (_ & Ha & _ & Hb & Hcl).
  assert (Hfix : ∀ (k : nat) raw',
    new_lines r !! k = Some raw' →
    atoms_start r ≤ Z.of_nat k < atoms_end r → skipped raw' = false →
    remap_record raw' (chain_len r) = Ok raw').
  { intros k raw' Hraw' Hk Hskip'.
    destruct (lines !! k) as [raw|] eqn:Hraw.
    2:{ apply lookup_ge_None in Hraw. apply lookup_lt_Some in Hraw'. lia. }
    destruct (run_line lines r k raw Hr Hraw)
      as [Hsame | (_ & Hskip & a & Hfields & Hint & Hnew)].
    - rewrite Hsame in Hraw'. injection Hraw' as <-.
      destruct (run_record lines r k raw Hr Hk Hraw Hskip')
        as (a & Hfields & Hint & Hnew).
      rewrite Hnew in Hsame. injection Hsame as Hsame.
      pose proof (remap_record_retyped raw a (chain_len r) Hfields Hint Hcl)
        as Hrec.
      by rewrite Hsame in Hrec.
    - rewrite Hnew in Hraw'. simplify_eq. by apply remap_record_retyped. }
  unfold remap_to_acag30.
  destruct (remap_loop _ _ _ _) as [out|e] eqn:Hout.
  - f_equal. apply list_eq. intros k.
    destruct (new_lines r !! k) as [raw'|] eqn:Hraw'.
    2:{ apply remap_loop_length in Hout.
        apply lookup_ge_None in Hraw'. apply lookup_ge_None. lia. }
    eapply remap_loop_ok in Hout as [Hkeep Hnew];
      [| apply range_nonneg; lia | done | exact Hraw'].
    destruct (decide (Z.of_nat k ∈ Py.range (atoms_start r) (atoms_end r)))
      as [Hk | Hk]; [| rewrite Hkeep; auto].
    destruct (skipped raw') eqn:Hskip'; [rewrite Hkeep; auto |].
    destruct (Hnew Hk eq_refl) as (new & Hrec & ->).
    rewrite (Hfix k raw') in Hrec; [congruence | done | | done].
    by apply elem_of_range.
  - apply remap_loop_raise in Hout as (i & Hi%elem_of_range & Hcase);
      [| apply range_nonneg; lia | done].
    destruct Hcase as [[Hnone _] | (raw' & Hraw' & Hskip' & Hrec)].
    { apply lookup_ge_None in Hnone. unfold Py.len in Hb. lia. }
    rewrite (Hfix (Z.to_nat i) raw') in Hrec; [done | done | lia | done].
Qed.

Lemma run_again lines r :
  pipeline lines = Ok r → pipeline (new_lines r) = Ok r.
Proof.
  intros Hr. apply pipeline_ok.
  destruct (run_facts _ _ Hr) as ((Hparse & _ & Hinf & _) & _).
  split; [by rewrite (run_parse_output lines) |].
  split; [by apply (run_find_output lines) |].
  split; [by rewrite (run_infer_output lines) |].
  by apply (run_remap_output lines).
Qed.

(** X8. The four stages are idempotent: run on the document a successful
    run returned, they succeed again, with the same atom count, block
    range, chain length and chain count, and they return that document
    unchanged. *)
Theorem pipeline_idempotent lines r :
  pipeline lines = Ok r → pipeline (new_lines r) = Ok r.
Proof. apply run_again. Qed.

Lemma pipeline_idempotent_witness :
  pipeline (new_lines run_ok) = Ok run_ok.
Proof. apply (pipeline_idempotent doc_ok run_ok). reflexivity. Defined.

(** ** The output file read back *)

Lemma join_empty_cons l ls : Py.join "" (l :: ls) = l ++ Py.join "" ls.
Proof.
  destruct ls as [|l2 ls]; simpl.
  - induction l as [|c l IH]; [done |]. rewrite app_cons. by rewrite <- IH.
  - by rewrite app_nil.
Qed.

Lemma term_line_not_empty l : term_line l = true → Py.empty l = false.
Proof. by destruct l. Qed.

(** A terminated line in front of a text is its first line. *)
Lemma splitlines_seal l y :
  term_line l = true → (ends_cr l = true → starts_lf y = false) →
  Py.splitlines (l ++ y) = l :: Py.splitlines y.
Proof.
  induction l as [|c l IH]; [done |]. intros Hterm Hcr.
  rewrite app_cons. simpl in *.
  destruct (Py.is_linebreak c) eqn:Hc.
  - apply orb_true_iff in Hterm as [Hl | [Hc' Hl]%andb_true_iff].
    + destruct l; [| done]. simpl in Hcr.
      rewrite app_nil. destruct y as [|d y]; [done |].
      destruct (Ascii.eqb c Py.CR) eqn:Hcr'; [| done].
      simpl in Hcr. by rewrite Hcr.
    + apply String.eqb_eq in Hl as ->. apply Ascii.eqb_eq in Hc' as ->.
      change (Py.newline ++ y) with (String Py.LF y). done.
  - rewrite IH; [done | done |].
    destruct l; [done | exact Hcr].
Qed.

Lemma splitlines_no_break l :
  no_break l = true → Py.empty l = false → Py.splitlines l = [l].
Proof.
  induction l as [|c l IH]; [done |]. simpl.
  intros [Hc Hl]%andb_true_iff _. apply negb_true_iff in Hc. rewrite Hc.
  destruct l as [|d l]; [done |]. by rewrite IH.
Qed.

Lemma splitlines_term_line l : term_line l = true → Py.splitlines l = [l].
Proof.
  intros Hl. pose proof (splitlines_seal l "" Hl) as H.
  assert (Hnil : ∀ s, s ++ "" = s).
  { induction s as [|c s IH]; [done |]. rewrite app_cons. by rewrite IH. }
  rewrite Hnil in H. by apply H.
Qed.

Lemma starts_lf_app l y :
  Py.empty l = false → starts_lf (l ++ y) = starts_lf l.
Proof. by destruct l. Qed.

(** Lines of that shape are the lines of their concatenation. *)
Lemma splitlines_join ls :
  lines_wf ls → Py.splitlines (Py.join "" ls) = ls.
Proof.
  induction ls as [|l rest IH]; [done |].
  destruct rest as [|l2 rest].
  - simpl. intros [Hl | [Hl Hne]].
    + apply splitlines_term_line. done.
    + apply splitlines_no_break; assumption.
  - intros (Hl & Hcr & Hrest). rewrite join_empty_cons.
    rewrite splitlines_seal, IH; [done | done | done |].
    intros Hends. rewrite join_empty_cons, starts_lf_app; [by apply Hcr |].
    simpl in Hrest. destruct rest.
    * destruct Hrest as [? | [_ ?]]; [by apply term_line_not_empty | done].
    * destruct Hrest as [? _]. by apply term_line_not_empty.
Qed.

Lemma splitlines_head c t :
  ∃ l ls, Py.splitlines (String c t) = String c l :: ls.
Proof.
  simpl. destruct (Py.is_linebreak c).
  - destruct t as [|d t]; [by eauto |].
    destruct (_ && _); by eauto.
  - destruct (Py.splitlines t); by eauto.
Qed.

Lemma lines_wf_cons_char c l ls :
  Py.is_linebreak c = false → lines_wf (l :: ls) → lines_wf (String c l :: ls).
Proof.
  intros Hc. simpl. destruct ls as [|l2 ls].
  - rewrite Hc. simpl. intros [Hl | [Hl Hne]]; [by left | by right].
  - rewrite Hc. intros (Hl & Hcr & Hrest). split; [done |]. split; [| done].
    destruct l; [done | exact Hcr].
Qed.

(** [splitlines] returns lines of that shape. *)
Lemma splitlines_wf t : lines_wf (Py.splitlines t).
Proof.
  assert (H : lines_wf (Py.splitlines t)
              ∧ ∀ d t', t = String d t' → lines_wf (Py.splitlines t')).
  2:{ by destruct H. }
  induction t as [|c t [IH IH']]; [done |].
  split; [| by intros d t' [= <- <-]].
  simpl. destruct (Py.is_linebreak c) eqn:Hc.
  - destruct t as [|d t].
    + simpl. left. by rewrite Hc.
    + destruct (Ascii.eqb c Py.CR && Ascii.eqb d Py.LF) eqn:Hcrlf.
      * apply andb_true_iff in Hcrlf as [->%Ascii.eqb_eq ->%Ascii.eqb_eq].
        specialize (IH' _ _ eq_refl).
        change (lines_wf (String Py.CR Py.newline :: Py.splitlines t)).
        destruct (Py.splitlines t) as [|l2 ls]; simpl; [by left |].
        split; [done |]. split; [done | exact IH'].
      * destruct (splitlines_head d t) as (l & ls & Heq).
        rewrite Heq in *.
        change (lines_wf (String c "" :: String d l :: ls)).
        simpl. rewrite Hc. simpl. split; [done |]. split; [| exact IH].
        intros Hcr. rewrite Hcr in Hcrlf. simpl in Hcrlf. exact Hcrlf.
  - destruct (Py.splitlines t) as [|l ls] eqn:Hsplit.
    + simpl. rewrite Hc. by right.
    + by apply lines_wf_cons_char.
Qed.

Lemma app_empty_r (s : string) : s ++ "" = s.
Proof. induction s as [|c s IH]; [done |]. rewrite app_cons. by rewrite IH. Qed.

Lemma lines_wf_replace ls ls' :
  lines_wf ls →
  Forall2 (λ l l', l' = l
                   ∨ (term_line l' = true ∧ ends_cr l' = false
                      ∧ starts_lf l' = false)) ls ls' →
  lines_wf ls'.
Proof.
  intros Hwf HF. induction HF as [|l l' ls ls' Hl HF IH]; [done |].
  destruct HF as [|l2 l2' ls ls' Hl2 HF].
  - simpl in *. destruct Hl as [-> | (? & _ & _)]; [done | by left].
  - destruct Hwf as (Hterm & Hcr & Hrest). specialize (IH Hrest).
    split; [| split; [| exact IH]].
    + destruct Hl as [-> | (? & _ & _)]; done.
    + intros Hends. destruct Hl2 as [-> | (_ & _ & ?)]; [| done].
      destruct Hl as [-> | (_ & Hno & _)]; [by apply Hcr | congruence].
Qed.

Lemma linebreak_space c : Py.is_linebreak c = true → Py.is_space c = true.
Proof. destruct c as [[] [] [] [] [] [] [] []]; vm_compute; congruence. Qed.

Lemma no_space_no_break t : no_space t = true → no_break t = true.
Proof.
  induction t as [|c t IH]; [done |]. simpl.
  intros [Hc Ht]%andb_true_iff. rewrite IH, andb_true_r by done.
  apply negb_true_iff in Hc. apply negb_true_iff.
  destruct (Py.is_linebreak c) eqn:Hb; [| done].
  apply linebreak_space in Hb. congruence.
Qed.

Lemma no_break_app s t : no_break (s ++ t) = no_break s && no_break t.
Proof.
  induction s as [|c s IH]; [done |]. rewrite app_cons. simpl.
  by rewrite IH, andb_assoc.
Qed.

Lemma no_break_join parts :
  Forall (λ t, is_token t = true) parts →
  no_break (Py.join " " parts) = true.
Proof.
  induction 1 as [|p ps Hp Hps IH]; [done |].
  assert (no_break p = true).
  { apply no_space_no_break. unfold is_token in Hp.
    by apply andb_true_iff in Hp as [_ ?]. }
  destruct ps as [|q ps]; [done |].
  change (Py.join " " (p :: q :: ps)) with (p ++ " " ++ Py.join " " (q :: ps)).
  rewrite !no_break_app, IH. by rewrite H.
Qed.

Lemma term_line_newline body :
  no_break body = true →
  term_line (body ++ Py.newline) = true ∧ ends_cr (body ++ Py.newline) = false.
Proof.
  induction body as [|c body IH]; [done |]. rewrite app_cons. simpl.
  intros [Hc Hbody]%andb_true_iff. apply negb_true_iff in Hc. rewrite Hc.
  destruct (IH Hbody) as [-> Hends]. split; [done |].
  destruct (body ++ Py.newline) eqn:Heq; [| done].
  by destruct body.
Qed.

(** The line a record is rewritten to has the shape of a terminated line. *)
Lemma retyped_shape raw a cl :
  6 ≤ Py.len (Py.split raw) →
  term_line (retyped raw (pattern_type a cl)) = true
  ∧ ends_cr (retyped raw (pattern_type a cl)) = false
  ∧ starts_lf (retyped raw (pattern_type a cl)) = false.
Proof.
  intros Hlen. unfold retyped.
  assert (Htok : Forall (λ t, is_token t = true)
                   (<[2%nat := Py.str (pattern_type a cl)]> (Py.split raw))).
  { apply Forall_insert; [apply split_is_token | apply str_pattern_token]. }
  destruct (term_line_newline _ (no_break_join _ Htok)) as [-> ->].
  split; [done |]. split; [done |].
  destruct (<[2%nat := _]> (Py.split raw)) as [|p ps] eqn:Hparts.
  { apply (f_equal length) in Hparts. rewrite length_insert in Hparts.
    unfold Py.len in Hlen. simpl in Hparts. lia. }
  inversion Htok as [|? ? Hp _]; subst.
  assert (Hhead : ∃ rest, Py.join " " (p :: ps) = p ++ rest).
  { destruct ps; [exists "" | by eexists]. by rewrite app_empty_r. }
  destruct Hhead as [rest ->]. rewrite append_assoc.
  destruct p as [|c p]; [done |]. rewrite app_cons. simpl.
  unfold is_token in Hp. simpl in Hp.
  apply andb_true_iff in Hp as [Hc _]. apply negb_true_iff in Hc.
  destruct (Ascii.eqb_spec c Py.LF) as [-> | _]; [| done].
  by vm_compute in Hc.
Qed.

Lemma run_lines_wf text r :
  pipeline (Py.splitlines text) = Ok r → lines_wf (new_lines r).
Proof.
  intros Hr. apply (lines_wf_replace (Py.splitlines text));
    [apply splitlines_wf |].
  apply Forall2_same_length_lookup_2; [by rewrite (run_length _ r Hr) |].
  intros k raw raw' Hraw Hraw'.
  destruct (run_line _ r k raw Hr Hraw)
    as [Hsame | (_ & _ & a & Hlen & _ & Hnew)].
  - left. congruence.
  - right. rewrite Hnew in Hraw'. simplify_eq. by apply retyped_shape.
Qed.

(** X9. Read back, the text [main] writes splits into exactly the lines
    the remapper returned: the output file has as many lines as the input
    file, also where the rewritten line was the last line of the file
    without a newline, or ended with another line break than LF. *)
Theorem output_reads_back text r :
  pipeline (Py.splitlines text) = Ok r →
  Py.splitlines (Py.join "" (new_lines r)) = new_lines r
  ∧ length (Py.splitlines (Py.join "" (new_lines r)))
    = length (Py.splitlines text).
Proof.
  intros Hr.
  assert (Hback : Py.splitlines (Py.join "" (new_lines r)) = new_lines r)
    by by apply splitlines_join, (run_lines_wf text).
  split; [done |]. rewrite Hback. by apply run_length.
Qed.

Lemma output_reads_back_witness :
  Py.splitlines (Py.join "" (new_lines run_ok)) = new_lines run_ok
  ∧ length (Py.splitlines (Py.join "" (new_lines run_ok)))
    = length (Py.splitlines (Py.join "" doc_ok)).
Proof.
  apply (output_reads_back (Py.join "" doc_ok) run_ok). reflexivity.
Defined.

(** ** [main] on files *)









(** ** When the remapper returns *)

(** X13. For a block inside the document and a chain length that is not
    0, the remapper returns a document exactly when every block line that
    is neither blank nor comment-prefixed has at least 6 fields and an
    integer in field 0. *)
Theorem remap_succeeds_iff lines a b cl :
  0 ≤ a → b ≤ Py.len lines → cl ≠ 0 →
  succeeds (remap_to_acag30 lines a b cl)
  ↔ ∀ raw, raw ∈ block lines a b →
      blank_or_comment (Py.strip raw) = false →
      6 ≤ Py.len (Py.split raw) ∧ is_Some (int_field 0 raw).
Proof.
  intros Ha Hb Hcl. unfold succeeds. split.
  - intros [out Hout] raw (i & Hi & Hraw)%elem_of_block Hskip; [| done..].
    unfold remap_to_acag30 in Hout.
    eapply remap_loop_ok in Hout as [_ Hrec];
      [| by apply range_nonneg | done | exact Hraw].
    destruct Hrec as (new & Hnew & _); [apply elem_of_range; lia | done |].
    rewrite remap_record_eq in Hnew.
    destruct (Z.ltb_spec (Py.len (Py.split raw)) 6); [done |].
    split; [done |]. by destruct (int_field 0 raw).
  - intros Hall.
    destruct (remap_to_acag30 lines a b cl) as [out|e] eqn:Hout; [by eauto |].
    apply remap_raise in Hout as (raw & Hraw & Hskip & Hcase); [| done..].
    destruct (Hall raw Hraw Hskip) as [Hlen [z Hz]].
    destruct Hcase as [[_ ?] | (_ & _ & ?)]; [lia | congruence].
Qed.

Lemma remap_succeeds_iff_witness :
  succeeds (remap_to_acag30 doc_ok 4 8 2)
  ↔ ∀ raw, raw ∈ block doc_ok 4 8 →
      blank_or_comment (Py.strip raw) = false →
      6 ≤ Py.len (Py.split raw) ∧ is_Some (int_field 0 raw).
Proof.
  apply (remap_succeeds_iff doc_ok 4 8 2);
    [lia | unfold Py.len; simpl; lia | lia].
Defined.
